(** * ILI2117 I2C touchscreen driver: frame layout, event reporting, polling

    A shallow embedding of [drivers/input/touchscreen/ili2117.c].

    - The wire frame ([struct touchdata], [struct finger]) is described by
      its member list; sizes and offsets are computed from that list, and
      the members are read out of the received bytes at those offsets.
    - The driver functions ([ili2117_read], [ili2117_report_events],
      [ili2117_work], [ili2117_irq]) are computations in a state monad over
      the driver instance [struct ili2117].  Calls into the input core, the
      I2C core, the device log and the workqueue are recorded in the
      instance, in call order.
    - The interrupt source and the worker are interleaved by a step
      function over the instance. *)

From Stdlib Require Import ZArith List String Bool Lia.
From Stdlib Require Import Strings.Byte.
Import ListNotations.

Local Open Scope string_scope.
Local Open Scope list_scope.
Local Open Scope Z_scope.

(** ** Constants of the driver *)

Definition MAX_TOUCHES : Z := 10.
Definition DEFAULT_POLL_PERIOD : Z := 20.
Definition X_MAX : Z := 2047.
Definition Y_MAX : Z := 2047.

(** Error numbers of [include/uapi/asm-generic/errno-base.h].  The driver
    only tests the result of [ili2117_read] against zero and prints it. *)
Definition EIO : Z := 5.

(** ** Wire layout

    A packed struct is given by its members in declaration order, each with
    its width in bits.  Both structs are [__packed] and every member has
    type [u8], so members follow each other without padding and adjacent
    bit-fields share a byte. *)

Definition layout := list (string * Z).

Definition bits_of (l : layout) : Z :=
  fold_right (fun m acc => snd m + acc) 0 l.

Definition sizeof (l : layout) : Z := bits_of l / 8.

(** Bit position of member [name], counted from the start of the struct. *)
Fixpoint bit_offset (name : string) (l : layout) : Z :=
  match l with
  | [] => 0
  | (n, w) :: rest =>
      if String.eqb n name then 0 else w + bit_offset name rest
  end.

Fixpoint bit_width (name : string) (l : layout) : Z :=
  match l with
  | [] => 0
  | (n, w) :: rest => if String.eqb n name then w else bit_width name rest
  end.

Definition offsetof (name : string) (l : layout) : Z := bit_offset name l / 8.

(** [struct finger] *)
Definition finger_layout : layout :=
  [ ("y_hi", 4); ("x_hi", 4); ("x_lo", 8); ("y_lo", 8); ("c_sum", 8) ].

Definition sizeof_finger : Z := sizeof finger_layout.

(** [struct touchdata] *)
Definition touchdata_layout : layout :=
  [ ("packet_id", 8);
    ("finger", MAX_TOUCHES * (8 * sizeof_finger));
    ("key", 4); ("p_sensor", 4);
    ("checksum", 8) ].

Definition sizeof_touchdata : Z := sizeof touchdata_layout.

(** ** Reading members out of a byte buffer *)

Definition u8 (b : byte) : Z := Z.of_N (Byte.to_N b).

(** The byte at offset [off]; a buffer shorter than the offset reads as
    zero.  A completed transfer always supplies the whole frame, so that
    case does not arise in a cycle that decodes. *)
Definition byte_at (buf : list byte) (off : Z) : Z :=
  u8 (nth (Z.to_nat off) buf x00).

(** A bit-field of [width] bits starting at bit [lo] of its byte.  The
    first declared bit-field takes the least significant bits (the
    allocation order of GCC on the little-endian targets of this tree). *)
Definition bitfield (b lo width : Z) : Z :=
  Z.land (Z.shiftr b lo) (Z.ones width).

(** Member [name] of a struct with layout [l] placed at byte [base]. *)
Definition member (l : layout) (name : string) (buf : list byte) (base : Z) : Z :=
  let bo := bit_offset name l in
  bitfield (byte_at buf (base + bo / 8)) (bo mod 8) (bit_width name l).

Record struct_finger := mk_finger {
  y_hi : Z;
  x_hi : Z;
  x_lo : Z;
  y_lo : Z;
  c_sum : Z
}.

Record struct_touchdata := mk_touchdata {
  packet_id : Z;
  finger : list struct_finger;
  key : Z;
  p_sensor : Z;
  checksum : Z
}.

Definition finger_at (buf : list byte) (base : Z) : struct_finger :=
  {| y_hi := member finger_layout "y_hi" buf base;
     x_hi := member finger_layout "x_hi" buf base;
     x_lo := member finger_layout "x_lo" buf base;
     y_lo := member finger_layout "y_lo" buf base;
     c_sum := member finger_layout "c_sum" buf base |}.

(** The [n] array elements that start at index [i]. *)
Fixpoint fingers_from (buf : list byte) (n : nat) (i : Z) : list struct_finger :=
  match n with
  | O => []
  | S n' =>
      finger_at buf (offsetof "finger" touchdata_layout + i * sizeof_finger)
        :: fingers_from buf n' (i + 1)
  end.

(** The frame as the driver sees it through [struct touchdata]. *)
Definition touchdata_of (buf : list byte) : struct_touchdata :=
  {| packet_id := member touchdata_layout "packet_id" buf 0;
     finger := fingers_from buf (Z.to_nat MAX_TOUCHES) 0;
     key := member touchdata_layout "key" buf 0;
     p_sensor := member touchdata_layout "p_sensor" buf 0;
     checksum := member touchdata_layout "checksum" buf 0 |}.

Definition no_finger : struct_finger := mk_finger 0 0 0 0 0.

(** [&touchdata->finger[i]] *)
Definition finger_ref (td : struct_touchdata) (i : Z) : struct_finger :=
  nth (Z.to_nat i) (finger td) no_finger.

(** A byte from its numeric value, for writing frames down. *)
Definition byte_of_Z (z : Z) : byte :=
  match Byte.of_N (Z.to_N z) with
  | Some b => b
  | None => x00
  end.

Definition frame_bytes (zs : list Z) : list byte := map byte_of_Z zs.

(** ** The driver instance and what it talks to *)

(** Calls into the input core, as the driver issues them. *)
Inductive mt_tool := MT_TOOL_FINGER.
Inductive abs_code := ABS_MT_POSITION_X | ABS_MT_POSITION_Y.

Inductive input_op :=
| input_mt_slot (slot : Z)
| input_mt_report_slot_state (tool : mt_tool) (active : bool)
| input_report_abs (code : abs_code) (value : Z)
| input_mt_report_pointer_emulation (use_count : bool)
| input_sync.

(** [struct input_dev]: the calls received so far, oldest first. *)
Definition input_dev := list input_op.

Inductive i2c_flag := I2C_M_RD.

Record i2c_msg := mk_msg {
  msg_addr : Z;
  msg_flags : i2c_flag;
  msg_len : Z
}.

(** [struct i2c_client]: bus address, the messages handed to
    [i2c_transfer] and the [dev_err] lines (format and arguments). *)
Record i2c_client := mk_client {
  addr : Z;
  transfers : list i2c_msg;
  dev_log : list (string * list Z)
}.

(** [struct delayed_work]: the pending bit, the armed expiry delays (in
    jiffies, oldest first), whether a worker is inside the work function,
    and the delay of every [schedule_delayed_work] call made so far. *)
Record delayed_work := mk_dwork {
  pending : bool;
  timers : list Z;
  running : bool;
  requests : list Z
}.

(** [struct ili2117] *)
Record struct_ili2117 := mk_ili2117 {
  client : i2c_client;
  input : input_dev;
  poll_period : Z;
  dwork : delayed_work
}.

Definition set_client (c : i2c_client) (p : struct_ili2117) :=
  mk_ili2117 c (input p) (poll_period p) (dwork p).
Definition set_input (i : input_dev) (p : struct_ili2117) :=
  mk_ili2117 (client p) i (poll_period p) (dwork p).
Definition set_dwork (w : delayed_work) (p : struct_ili2117) :=
  mk_ili2117 (client p) (input p) (poll_period p) w.

(** What one [i2c_transfer] call does: its return value (the number of
    messages executed, or a negative error number) and the contents of the
    caller's buffer afterwards. *)
Record i2c_result := mk_result {
  xfer_ret : Z;
  xfer_buf : list byte
}.

(** ** A state monad over the driver instance *)

Definition M (A : Type) : Type := struct_ili2117 -> A * struct_ili2117.

Definition ret {A} (a : A) : M A := fun p => (a, p).

Definition bind {A B} (c : M A) (k : A -> M B) : M B :=
  fun p => let (a, p') := c p in k a p'.

Declare Scope drv_scope.
Delimit Scope drv_scope with drv.
Notation "x <- c ;; k" := (bind c (fun x => k))
  (at level 61, c at next level, right associativity) : drv_scope.
Notation "c ;; k" := (bind c (fun _ => k))
  (at level 61, right associativity) : drv_scope.
Local Open Scope drv_scope.

Definition exec {A} (c : M A) (p : struct_ili2117) : struct_ili2117 := snd (c p).

(** [for (i = from; i < from + n; i++) body(i)] *)
Fixpoint for_range (n : nat) (i : Z) (body : Z -> M unit) : M unit :=
  match n with
  | O => ret tt
  | S n' => body i ;; for_range n' (i + 1) body
  end.

(** *** Kernel services *)

Definition emit (op : input_op) : M unit :=
  fun p => (tt, set_input (input p ++ [op]) p).

Definition dev_err (fmt : string) (args : list Z) : M unit :=
  fun p =>
    let c := client p in
    (tt, set_client (mk_client (addr c) (transfers c) (dev_log c ++ [(fmt, args)])) p).

(** The message is handed to the adapter; [bus] is what the adapter does
    with it. *)
Definition i2c_transfer (bus : i2c_result) (msg : i2c_msg) : M (Z * list byte) :=
  fun p =>
    let c := client p in
    ((xfer_ret bus, xfer_buf bus),
     set_client (mk_client (addr c) (transfers c ++ [msg]) (dev_log c)) p).

(** Modelled from the spec: [schedule_delayed_work] of the kernel's
    workqueue, which is not part of the driver file.  A request made while
    the work is pending is coalesced into the pending one (idempotent
    rescheduling, not a queue); otherwise the pending flag is set and a
    timer with the requested delay is armed.  The result tells whether the
    request armed a timer. *)
Definition schedule_delayed_work (delay : Z) : M bool :=
  fun p =>
    let w := dwork p in
    if pending w then
      (false, set_dwork (mk_dwork true (timers w) (running w) (requests w ++ [delay])) p)
    else
      (true, set_dwork (mk_dwork true (timers w ++ [delay]) (running w)
                                 (requests w ++ [delay])) p).

Inductive irqreturn_t := IRQ_NONE | IRQ_HANDLED.

Definition gets {A} (f : struct_ili2117 -> A) : M A := fun p => (f p, p).

(** ** The driver *)

Section Driver.

(** [msecs_to_jiffies] of the kernel's time keeping; its value depends on
    the tick rate the kernel is built with. *)
Variable msecs_to_jiffies : Z -> Z.

Set Default Proof Using "Type".

(** Returns the error code and the contents of [buf] after the call. *)
Definition ili2117_read (bus : i2c_result) (len : Z) : M (Z * list byte) :=
  a <- gets (fun p => addr (client p)) ;;
  r <- i2c_transfer bus (mk_msg a I2C_M_RD len) ;;
  if negb (fst r =? 1) then
    dev_err "i2c transfer failed\n" [] ;;
    ret (- EIO, snd r)
  else
    ret (0, snd r).

(** The body of the loop over the slots. *)
Definition report_slot (touchdata : struct_touchdata) (i : Z) : M unit :=
  emit (input_mt_slot i) ;;
  let finger := finger_ref touchdata i in
  let touch := (packet_id touchdata =? 0x5a) &&
               negb (checksum touchdata =? 0xff) &&
               negb (c_sum finger =? 0xff) in
  emit (input_mt_report_slot_state MT_TOOL_FINGER touch) ;;
  if touch then
    let x := Z.lor (x_lo finger) (Z.shiftl (x_hi finger) 8) in
    let y := Z.lor (y_lo finger) (Z.shiftl (y_hi finger) 8) in
    emit (input_report_abs ABS_MT_POSITION_X x) ;;
    emit (input_report_abs ABS_MT_POSITION_Y y)
  else
    ret tt.

Definition ili2117_report_events (touchdata : struct_touchdata) : M unit :=
  for_range (Z.to_nat (MAX_TOUCHES - 0)) 0 (report_slot touchdata) ;;
  emit (input_mt_report_pointer_emulation false) ;;
  emit input_sync.

(** The work function; [bus] is the outcome of the one transfer it makes. *)
Definition ili2117_work (bus : i2c_result) : M unit :=
  r <- ili2117_read bus sizeof_touchdata ;;
  let error := fst r in
  if negb (error =? 0) then
    dev_err "Unable to get touchdata, err = %d\n" [error]
  else
    let touchdata := touchdata_of (snd r) in
    ili2117_report_events touchdata ;;
    if packet_id touchdata =? 0x5a then
      period <- gets poll_period ;;
      schedule_delayed_work (msecs_to_jiffies period) ;;
      ret tt
    else
      ret tt.

Definition ili2117_irq : M irqreturn_t :=
  schedule_delayed_work 0 ;;
  ret IRQ_HANDLED.

(** The instance that a successful [ili2117_i2c_probe] leaves behind for
    the client at bus address [a]: zeroed by [kzalloc], then [poll_period]
    set and the delayed work initialised, nothing sent or logged yet. *)
Definition probed (a : Z) : struct_ili2117 :=
  {| client := mk_client a [] [];
     input := [];
     poll_period := DEFAULT_POLL_PERIOD;
     dwork := mk_dwork false [] false [] |}.

(** ** Interleaving of the interrupt source and the worker *)

Inductive event :=
| Interrupt
| WorkerStart
| WorkerFinish (bus : i2c_result).

(** Modelled from the spec: the workqueue side of a cycle, which is not part
    of the driver file.  When the time of a requested read arrives the
    request leaves the [Scheduled] state (timer and pending bit are
    consumed) and the single worker enters the work function; one cycle
    runs at a time. *)
Definition worker_start (p : struct_ili2117) : option struct_ili2117 :=
  let w := dwork p in
  match timers w with
  | [] => None
  | _ :: rest =>
      if running w then None
      else Some (set_dwork (mk_dwork false rest true (requests w)) p)
  end.

Definition worker_done (p : struct_ili2117) : struct_ili2117 :=
  let w := dwork p in
  set_dwork (mk_dwork (pending w) (timers w) false (requests w)) p.

Definition step (e : event) (p : struct_ili2117) : option struct_ili2117 :=
  match e with
  | Interrupt => Some (exec ili2117_irq p)
  | WorkerStart => worker_start p
  | WorkerFinish bus =>
      if running (dwork p) then Some (worker_done (exec (ili2117_work bus) p))
      else None
  end.

Fixpoint run (es : list event) (p : struct_ili2117) : option struct_ili2117 :=
  match es with
  | [] => Some p
  | e :: es' =>
      match step e p with
      | Some p' => run es' p'
      | None => None
      end
  end.

Definition reachable (p : struct_ili2117) : Prop :=
  exists a es, run es (probed a) = Some p.

(** Reads requested and not yet started. *)
Definition outstanding (p : struct_ili2117) : Z :=
  Z.of_nat (List.length (timers (dwork p))).

(** The scheduler is idle: nothing requested, nothing executing. *)
Definition idle (p : struct_ili2117) : Prop :=
  pending (dwork p) = false /\ timers (dwork p) = [] /\ running (dwork p) = false.

(** ** Reading the call sequence the way its consumer does *)

(** The calls a computation adds to the input device. *)
Definition emitted {A} (c : M A) (p : struct_ili2117) : list input_op :=
  skipn (List.length (input p)) (input (exec c p)).

(** The slots selected by [input_mt_slot], in call order. *)
Fixpoint slots_selected (ops : list input_op) : list Z :=
  match ops with
  | [] => []
  | input_mt_slot j :: r => j :: slots_selected r
  | _ :: r => slots_selected r
  end.

(** The slot-state and position calls made while slot [i] is selected;
    [cur] is the slot selected so far. *)
Fixpoint addressed_from (cur : option Z) (i : Z) (ops : list input_op)
  : list input_op :=
  match ops with
  | [] => []
  | input_mt_slot j :: r => addressed_from (Some j) i r
  | (input_mt_report_slot_state _ _ as op) :: r
  | (input_report_abs _ _ as op) :: r =>
      match cur with
      | Some j => if j =? i then op :: addressed_from cur i r
                  else addressed_from cur i r
      | None => addressed_from cur i r
      end
  | _ :: r => addressed_from cur i r
  end.

Definition addressed (i : Z) (ops : list input_op) : list input_op :=
  addressed_from None i ops.

(** What a slot is told in one cycle. *)
Inductive contact :=
| Touching (x y : Z)
| Released.

Record SlotEvent := mk_event {
  slot_index : Z;
  slot_contact : contact
}.

Definition is_touching (c : contact) : bool :=
  match c with
  | Touching _ _ => true
  | Released => false
  end.

Definition contact_of (ops : list input_op) : option contact :=
  match ops with
  | [input_mt_report_slot_state _ false] => Some Released
  | [input_mt_report_slot_state _ true;
     input_report_abs ABS_MT_POSITION_X x;
     input_report_abs ABS_MT_POSITION_Y y] => Some (Touching x y)
  | _ => None
  end.

(** One event per selected slot that was told a well-formed contact. *)
Definition slot_events (ops : list input_op) : list SlotEvent :=
  flat_map (fun i => match contact_of (addressed i ops) with
                     | Some c => [mk_event i c]
                     | None => []
                     end)
           (slots_selected ops).

(** ** The calls of one report, as a list *)

Definition touch_of (td : struct_touchdata) (i : Z) : bool :=
  (packet_id td =? 0x5a) && negb (checksum td =? 0xff) &&
  negb (c_sum (finger_ref td i) =? 0xff).

Definition finger_x (f : struct_finger) : Z := Z.lor (x_lo f) (Z.shiftl (x_hi f) 8).
Definition finger_y (f : struct_finger) : Z := Z.lor (y_lo f) (Z.shiftl (y_hi f) 8).

Definition slot_body (td : struct_touchdata) (i : Z) : list input_op :=
  input_mt_report_slot_state MT_TOOL_FINGER (touch_of td i) ::
  (if touch_of td i then
     [input_report_abs ABS_MT_POSITION_X (finger_x (finger_ref td i));
      input_report_abs ABS_MT_POSITION_Y (finger_y (finger_ref td i))]
   else []).

Definition slot_ops (td : struct_touchdata) (i : Z) : list input_op :=
  input_mt_slot i :: slot_body td i.

Fixpoint range_ops (td : struct_touchdata) (n : nat) (i : Z) : list input_op :=
  match n with
  | O => []
  | S n' => slot_ops td i ++ range_ops td n' (i + 1)
  end.

Definition report_ops (td : struct_touchdata) : list input_op :=
  range_ops td (Z.to_nat MAX_TOUCHES) 0 ++
  [input_mt_report_pointer_emulation false; input_sync].

Fixpoint Zseq (from : Z) (n : nat) : list Z :=
  match n with
  | O => []
  | S n' => from :: Zseq (from + 1) n'
  end.

(** What slot [i] is told by a report of frame [td]. *)
Definition contact_reported (td : struct_touchdata) (i : Z) : contact :=
  if touch_of td i
  then Touching (finger_x (finger_ref td i)) (finger_y (finger_ref td i))
  else Released.

(** The instance after a transfer of [len] bytes was handed to the bus. *)
Definition transfer_logged (len : Z) (p : struct_ili2117) : struct_ili2117 :=
  let c := client p in
  set_client (mk_client (addr c)
                        (transfers c ++ [mk_msg (addr c) I2C_M_RD len])
                        (dev_log c)) p.

Definition errors_logged (lines : list (string * list Z)) (p : struct_ili2117)
  : struct_ili2117 :=
  let c := client p in
  set_client (mk_client (addr c) (transfers c) (dev_log c ++ lines)) p.

(** The two lines a failed transfer leaves in the device log. *)
Definition transfer_failed : list (string * list Z) :=
  [("i2c transfer failed\n", []);
   ("Unable to get touchdata, err = %d\n", [- EIO])].

(** The pending bit is set exactly when a timer is armed, there is at most
    one timer, and the poll period is the one set at probe time. *)
Definition well_scheduled (p : struct_ili2117) : Prop :=
  poll_period p = DEFAULT_POLL_PERIOD /\
  ((pending (dwork p) = false /\ timers (dwork p) = []) \/
   (pending (dwork p) = true /\ exists d, timers (dwork p) = [d])).

(** A tick rate of 100 per second, for running the model. *)
Definition jiffies_at_100hz (ms : Z) : Z := (ms + 9) / 10.

(** The instance of the client at address [a] while its first cycle is in
    flight: one interrupt was taken and the worker has entered the work
    function. *)
Definition in_flight (a : Z) : struct_ili2117 :=
  {| client := mk_client a [] [];
     input := [];
     poll_period := DEFAULT_POLL_PERIOD;
     dwork := mk_dwork false [] true [0] |}.

(** The instance after one interrupt, before the worker starts. *)
Definition armed (a : Z) : struct_ili2117 :=
  {| client := mk_client a [] [];
     input := [];
     poll_period := DEFAULT_POLL_PERIOD;
     dwork := mk_dwork true [0] false [0] |}.

(** The instance after a first cycle whose transfer failed. *)
Definition after_failure (a : Z) : struct_ili2117 :=
  {| client := mk_client a [mk_msg a I2C_M_RD 43] transfer_failed;
     input := [];
     poll_period := DEFAULT_POLL_PERIOD;
     dwork := mk_dwork false [] false [0] |}.

(** Frames used as examples. *)
Definition released_fingers (n : nat) : list Z :=
  List.concat (repeat [0xff; 0xff; 0xff; 0xff] n).

(** One finger down at (100, 200) in slot 0. *)
Definition frame_one_touch : list byte :=
  frame_bytes ([0x5a; 0x00; 100; 200; 0x01] ++ released_fingers 9 ++ [0x00; 0x01]).

(** The same touch, with other bytes in the released fingers' coordinates
    and in the key/proximity byte. *)
Definition frame_one_touch_noisy : list byte :=
  frame_bytes ([0x5a; 0x00; 100; 200; 0x01] ++
               List.concat (repeat [0x12; 0x34; 0x56; 0xff] 9) ++ [0xa5; 0x01]).

(** The same frame with the whole-frame sentinel checksum. *)
Definition frame_sentinel : list byte :=
  frame_bytes ([0x5a; 0x00; 100; 200; 0x01] ++ released_fingers 9 ++ [0x00; 0xff]).

(** A frame that is not touch data. *)
Definition frame_other : list byte :=
  frame_bytes ([0x00; 0x00; 100; 200; 0x01] ++ released_fingers 9 ++ [0x00; 0x01]).

(** A finger whose high x bits are 8: x = 2048. *)
Definition frame_wide : list byte :=
  frame_bytes ([0x5a; 0x80; 0x00; 0x00; 0x01] ++ released_fingers 9 ++ [0x00; 0x01]).

(** ** Probing and removing the device *)

Definition EINVAL : Z := 22.
Definition ENOMEM : Z := 12.

Inductive ev_type := EV_SYN | EV_KEY | EV_ABS.
Inductive key_code := BTN_TOUCH.
Inductive bus_type := BUS_I2C.
Inductive abs_axis := ABS_X | ABS_Y | ABS_MT (code : abs_code).

(** Calls of [ili2117_i2c_probe] and [ili2117_i2c_remove] into the kernel,
    each with the result the kernel gave where the driver looks at it.  For
    the allocators the result is whether the pointer is non-NULL, and the
    two free functions record whether their argument is non-NULL. *)
Inductive kcall :=
| dev_dbg (fmt : string) (args : list Z)
| dev_error (fmt : string) (args : list Z)
| kzalloc (ok : bool)
| input_allocate_device (ok : bool)
| set_input_name (name : string)
| set_input_bustype (b : bus_type)
| set_input_parent
| set_evbit (t : ev_type)
| set_keybit (k : key_code)
| input_set_abs_params (axis : abs_axis) (min max fuzz flat : Z)
| input_mt_init_slots (num_slots flags : Z)
| input_set_drvdata
| i2c_set_clientdata
| request_irq (irq flags ret : Z)
| input_register_device (ret : Z)
| device_init_wakeup (enable : bool)
| free_irq (irq : Z)
| input_free_device (nonnull : bool)
| kfree (nonnull : bool)
| cancel_delayed_work_sync
| input_unregister_device.

(** What the kernel answers during one probe. *)
Record probe_env := mk_env {
  client_irq : Z;
  kzalloc_ok : bool;
  input_allocate_ok : bool;
  request_irq_ret : Z;
  input_register_ret : Z
}.

Record probe_result := mk_probe {
  probe_ret : Z;
  probe_calls : list kcall;
  probe_priv : option struct_ili2117
}.

(** The labels [err_free_mem] and [err_free_irq]. *)
Definition err_free_mem (env : probe_env) : list kcall :=
  [input_free_device (input_allocate_ok env); kfree (kzalloc_ok env)].

Definition err_free_irq (env : probe_env) : list kcall :=
  free_irq (client_irq env) :: err_free_mem env.

(** The set-up of the input device between the allocation and
    [request_irq]. *)
Definition input_setup : list kcall :=
  [ set_input_name "ILI2117 Touchscreen";
    set_input_bustype BUS_I2C;
    set_input_parent;
    set_evbit EV_SYN; set_evbit EV_KEY; set_evbit EV_ABS;
    set_keybit BTN_TOUCH;
    input_set_abs_params ABS_X 0 X_MAX 0 0;
    input_set_abs_params ABS_Y 0 Y_MAX 0 0;
    input_mt_init_slots MAX_TOUCHES 0;
    input_set_abs_params (ABS_MT ABS_MT_POSITION_X) 0 X_MAX 0 0;
    input_set_abs_params (ABS_MT ABS_MT_POSITION_Y) 0 Y_MAX 0 0;
    input_set_drvdata;
    i2c_set_clientdata ].

(** [ili2117_i2c_probe] for the client at bus address [a]: the value
    returned, the kernel calls made, and the instance left behind. *)
Definition ili2117_i2c_probe (a : Z) (env : probe_env) : probe_result :=
  let c0 := [dev_dbg "Probing for ILI2117 I2C Touschreen driver" []] in
  if client_irq env <=? 0 then
    mk_probe (- EINVAL) (c0 ++ [dev_error "No IRQ!\n" []]) None
  else
    let c1 := c0 ++ [kzalloc (kzalloc_ok env);
                     input_allocate_device (input_allocate_ok env)] in
    if negb (kzalloc_ok env) || negb (input_allocate_ok env) then
      mk_probe (- ENOMEM) (c1 ++ err_free_mem env) None
    else
      let c2 := c1 ++ input_setup ++
                [request_irq (client_irq env) 0 (request_irq_ret env)] in
      if negb (request_irq_ret env =? 0) then
        mk_probe (request_irq_ret env)
                 (c2 ++ [dev_error "Unable to request touchscreen IRQ, err: %d\n"
                                   [request_irq_ret env]]
                     ++ err_free_mem env)
                 None
      else
        let c3 := c2 ++ [input_register_device (input_register_ret env)] in
        if negb (input_register_ret env =? 0) then
          mk_probe (input_register_ret env)
                   (c3 ++ [dev_error "Cannot register input device, err: %d\n"
                                     [input_register_ret env]]
                       ++ err_free_irq env)
                   None
        else
          mk_probe 0
                   (c3 ++ [device_init_wakeup true;
                           dev_dbg "ILI2117 initialized (IRQ: %d)" [client_irq env]])
                   (Some (probed a)).

(** [ili2117_i2c_remove] for a client whose interrupt line is [irq]; it
    returns 0. *)
Definition ili2117_i2c_remove (irq : Z) : Z * list kcall :=
  (0, [free_irq irq; cancel_delayed_work_sync; input_unregister_device; kfree true]).

(** *** What a sequence of kernel calls leaves held *)

Inductive resource :=
| R_priv
| R_input
| R_irq (irq : Z)
| R_registered.

Definition resource_eqb (r1 r2 : resource) : bool :=
  match r1, r2 with
  | R_priv, R_priv => true
  | R_input, R_input => true
  | R_irq a, R_irq b => a =? b
  | R_registered, R_registered => true
  | _, _ => false
  end.

(** Releases the first [r] in [held]; [None] if there is none. *)
Fixpoint release (r : resource) (held : list resource) : option (list resource) :=
  match held with
  | [] => None
  | h :: rest =>
      if resource_eqb h r then Some rest
      else match release r rest with
           | Some rest' => Some (h :: rest')
           | None => None
           end
  end.

(** The resources held after the calls, starting from [held]; [None] when
    a call releases what is not held.  An allocation or request that failed
    takes nothing, freeing NULL releases nothing, and unregistering the
    input device also drops the reference taken when it was allocated. *)
Fixpoint ledger (calls : list kcall) (held : list resource) : option (list resource) :=
  match calls with
  | [] => Some held
  | c :: rest =>
      let next :=
        match c with
        | kzalloc true => Some (held ++ [R_priv])
        | input_allocate_device true => Some (held ++ [R_input])
        | request_irq irq _ ret =>
            if ret =? 0 then Some (held ++ [R_irq irq]) else Some held
        | input_register_device ret =>
            if ret =? 0 then Some (held ++ [R_registered]) else Some held
        | free_irq irq => release (R_irq irq) held
        | input_free_device true => release R_input held
        | kfree true => release R_priv held
        | input_unregister_device =>
            match release R_registered held with
            | Some held' => release R_input held'
            | None => None
            end
        | _ => Some held
        end in
      match next with
      | Some held' => ledger rest held'
      | None => None
      end
  end.

(** The capabilities a probe declares to the input core. *)
Fixpoint declared_slots (calls : list kcall) : Z :=
  match calls with
  | [] => 0
  | input_mt_init_slots n _ :: _ => n
  | _ :: rest => declared_slots rest
  end.

Fixpoint declared_range (code : abs_code) (calls : list kcall) : option (Z * Z) :=
  match calls with
  | [] => None
  | input_set_abs_params (ABS_MT c) lo hi _ _ :: rest =>
      match c, code with
      | ABS_MT_POSITION_X, ABS_MT_POSITION_X => Some (lo, hi)
      | ABS_MT_POSITION_Y, ABS_MT_POSITION_Y => Some (lo, hi)
      | _, _ => declared_range code rest
      end
  | _ :: rest => declared_range code rest
  end.

(** The position calls of a sequence: axis and value. *)
Fixpoint positions (ops : list input_op) : list (abs_code * Z) :=
  match ops with
  | [] => []
  | input_report_abs c v :: rest => (c, v) :: positions rest
  | _ :: rest => positions rest
  end.

Definition is_request_irq (c : kcall) : bool :=
  match c with
  | request_irq _ _ _ => true
  | _ => false
  end.

(** A probe in which everything succeeds, on interrupt line 5. *)
Definition probe_ok : probe_env := mk_env 5 true true 0 0.

(** ** More vocabulary for cycles *)

(** The report of a frame in which no slot touches. *)
Definition all_released : list input_op :=
  flat_map (fun i => [input_mt_slot i;
                      input_mt_report_slot_state MT_TOOL_FINGER false])
           [0; 1; 2; 3; 4; 5; 6; 7; 8; 9] ++
  [input_mt_report_pointer_emulation false; input_sync].

(** The number of touching slots of a frame. *)
Definition touching_slots (td : struct_touchdata) : Z :=
  Z.of_nat (List.length (filter (touch_of td) (Zseq 0 (Z.to_nat MAX_TOUCHES)))).

Definition is_sync (op : input_op) : bool :=
  match op with
  | input_sync => true
  | _ => false
  end.

(** A cycle after which the work function asks for the next poll. *)
Definition continues (bus : i2c_result) : bool :=
  (xfer_ret bus =? 1) && (packet_id (touchdata_of (xfer_buf bus)) =? 0x5a).

(** One worker cycle per transfer outcome, with no interrupt in between. *)
Definition cycles (outcomes : list i2c_result) : list event :=
  flat_map (fun bus => [WorkerStart; WorkerFinish bus]) outcomes.

Definition is_interrupt (e : event) : bool :=
  match e with
  | Interrupt => true
  | _ => false
  end.

(** ** The driver's receive buffer *)


(** ** Teardown *)

(** The device as the kernel sees it: the driver instance, the interrupt
    line, whether the handler is installed, whether the input device is
    registered, whether the instance is allocated, the calls that
    [ili2117_i2c_remove] still has to make once it has been entered, and
    whether the handler or the work function ever ran on an instance that
    was freed or on an input device that was unregistered. *)
Record device := mk_device {
  priv : struct_ili2117;
  line : Z;
  irq_installed : bool;
  input_registered : bool;
  priv_allocated : bool;
  removing : option (list kcall);
  fault : bool
}.

(** The device after a successful probe left the instance [p]. *)
Definition installed (irq : Z) (p : struct_ili2117) : device :=
  mk_device p irq true true true None false.

Inductive tevent :=
| Driver (e : event)
| RemoveCalled
| RemoveNext.

(** A step of the interrupt source or the worker on the device.  Modelled
    from the spec: once the interrupt is disarmed no interrupt is
    delivered. *)
Definition driver_step (e : event) (d : device) : option device :=
  let enabled := match e with
                 | Interrupt => irq_installed d
                 | _ => true
                 end in
  let on_released := negb (priv_allocated d) ||
                     match e with
                     | WorkerFinish _ => negb (input_registered d)
                     | _ => false
                     end in
  if enabled then
    match step e (priv d) with
    | Some p' =>
        Some (mk_device p' (line d) (irq_installed d) (input_registered d)
                        (priv_allocated d) (removing d) (fault d || on_released))
    | None => None
    end
  else None.

(** Modelled from the spec: what the calls of [ili2117_i2c_remove] do,
    which is kernel code outside the driver file.  [free_irq] disarms the
    interrupt.  [cancel_delayed_work_sync] joins the worker: it cannot
    return while a cycle is in flight, and when it returns the pending timer
    is cancelled and no read is scheduled.  [input_unregister_device] and
    [kfree] release the input device and the instance. *)
Definition remove_call (c : kcall) (d : device) : option device :=
  match c with
  | free_irq n =>
      Some (mk_device (priv d) (line d)
                      (if n =? line d then false else irq_installed d)
                      (input_registered d) (priv_allocated d) (removing d) (fault d))
  | cancel_delayed_work_sync =>
      if running (dwork (priv d)) then None
      else Some (mk_device
                   (set_dwork (mk_dwork false [] false (requests (dwork (priv d))))
                              (priv d))
                   (line d) (irq_installed d) (input_registered d)
                   (priv_allocated d) (removing d) (fault d))
  | input_unregister_device =>
      Some (mk_device (priv d) (line d) (irq_installed d) false
                      (priv_allocated d) (removing d) (fault d))
  | kfree true =>
      Some (mk_device (priv d) (line d) (irq_installed d) (input_registered d)
                      false (removing d) (fault d))
  | _ => Some d
  end.

Definition set_removing (l : option (list kcall)) (d : device) : device :=
  mk_device (priv d) (line d) (irq_installed d) (input_registered d)
            (priv_allocated d) l (fault d).

(** [RemoveCalled] enters [ili2117_i2c_remove], once; [RemoveNext] makes
    its next call, if that call can return. *)
Definition tstep (te : tevent) (d : device) : option device :=
  match te with
  | Driver e => driver_step e d
  | RemoveCalled =>
      match removing d with
      | None => Some (set_removing (Some (snd (ili2117_i2c_remove (line d)))) d)
      | Some _ => None
      end
  | RemoveNext =>
      match removing d with
      | Some (c :: rest) =>
          match remove_call c d with
          | Some d' => Some (set_removing (Some rest) d')
          | None => None
          end
      | _ => None
      end
  end.

Fixpoint trun (tes : list tevent) (d : device) : option device :=
  match tes with
  | [] => Some d
  | te :: tes' =>
      match tstep te d with
      | Some d' => trun tes' d'
      | None => None
      end
  end.

Definition is_free_irq (c : kcall) : bool :=
  match c with
  | free_irq _ => true
  | _ => false
  end.

Definition is_cancel (c : kcall) : bool :=
  match c with
  | cancel_delayed_work_sync => true
  | _ => false
  end.

(** Remove has been entered and [free_irq] has returned. *)
Definition disarmed (d : device) : bool :=
  match removing d with
  | Some l => negb (existsb is_free_irq l)
  | None => false
  end.

(** Remove has been entered and both [free_irq] and
    [cancel_delayed_work_sync] have returned. *)
Definition joined (d : device) : bool :=
  match removing d with
  | Some l => negb (existsb is_free_irq l) && negb (existsb is_cancel l)
  | None => false
  end.

(** The stages of a removal. *)
Definition teardown_stage (d : device) : Prop :=
  match removing d with
  | None =>
      irq_installed d = true /\ input_registered d = true /\ priv_allocated d = true
  | Some l =>
      (l = [free_irq (line d); cancel_delayed_work_sync;
            input_unregister_device; kfree true] /\
       irq_installed d = true /\ input_registered d = true /\
       priv_allocated d = true) \/
      (l = [cancel_delayed_work_sync; input_unregister_device; kfree true] /\
       irq_installed d = false /\ input_registered d = true /\
       priv_allocated d = true) \/
      (l = [input_unregister_device; kfree true] /\
       irq_installed d = false /\ input_registered d = true /\
       priv_allocated d = true /\ idle (priv d)) \/
      (l = [kfree true] /\
       irq_installed d = false /\ input_registered d = false /\
       priv_allocated d = true /\ idle (priv d)) \/
      (l = [] /\
       irq_installed d = false /\ input_registered d = false /\
       priv_allocated d = false /\ idle (priv d))
  end.

(** * Properties *)

(** ** Layout *)

Lemma sizeof_finger_val : sizeof_finger = 4.
Proof. reflexivity. Qed.

Lemma sizeof_touchdata_val : sizeof_touchdata = 43.
Proof. reflexivity. Qed.

Lemma u8_range (b : byte) : 0 <= u8 b <= 255.
Proof.
  unfold u8. pose proof (Byte.to_N_bounded b) as H.
  split; [apply N2Z.is_nonneg|].
  change 255 with (Z.of_N 255). apply N2Z.inj_le. exact H.
Qed.

Lemma byte_at_range (buf : list byte) (off : Z) : 0 <= byte_at buf off <= 255.
Proof. apply u8_range. Qed.

(** The members of a frame, by byte offset. *)
Lemma packet_id_at (buf : list byte) :
  packet_id (touchdata_of buf) = Z.land (byte_at buf 0) 255.
Proof. reflexivity. Qed.

Lemma checksum_at (buf : list byte) :
  checksum (touchdata_of buf) = Z.land (byte_at buf 42) 255.
Proof. reflexivity. Qed.

Lemma land_255 (z : Z) : 0 <= z <= 255 -> Z.land z 255 = z.
Proof.
  intros H. change 255 with (Z.ones 8).
  rewrite Z.land_ones by lia. apply Z.mod_small. lia.
Qed.

Lemma fingers_from_nth (buf : list byte) (n : nat) (i : Z) (k : nat) :
  (k < n)%nat ->
  nth k (fingers_from buf n i) no_finger =
  finger_at buf (offsetof "finger" touchdata_layout + (i + Z.of_nat k) * sizeof_finger).
Proof.
  revert i k. induction n as [|n IH]; intros i k Hk; [lia|].
  destruct k as [|k]; simpl fingers_from; simpl nth.
  - now rewrite Z.add_0_r.
  - rewrite IH by lia. do 2 f_equal. lia.
Qed.

Lemma finger_ref_at (buf : list byte) (i : Z) :
  0 <= i < MAX_TOUCHES ->
  finger_ref (touchdata_of buf) i = finger_at buf (1 + i * 4).
Proof.
  intros Hi. unfold finger_ref, touchdata_of; cbn [finger].
  rewrite fingers_from_nth by (unfold MAX_TOUCHES in *; lia).
  rewrite Z2Nat.id by lia. reflexivity.
Qed.

(** ** Reporting *)

Lemma set_input_same (p : struct_ili2117) : set_input (input p) p = p.
Proof. now destruct p. Qed.

Lemma report_slot_spec (td : struct_touchdata) (i : Z) (p : struct_ili2117) :
  report_slot td i p = (tt, set_input (input p ++ slot_ops td i) p).
Proof.
  unfold report_slot, slot_ops, slot_body, touch_of, finger_x, finger_y, bind, emit, ret.
  destruct p as [c inp pp w]; cbn [input set_input client poll_period dwork].
  destruct ((packet_id td =? 90) && negb (checksum td =? 255) &&
            negb (c_sum (finger_ref td i) =? 255));
    cbn; unfold set_input; cbn; rewrite <- ?app_assoc; reflexivity.
Qed.

Lemma for_range_report (td : struct_touchdata) (n : nat) :
  forall (i : Z) (p : struct_ili2117),
    for_range n i (report_slot td) p =
    (tt, set_input (input p ++ range_ops td n i) p).
Proof.
  induction n as [|n IH]; intros i p; cbn [for_range range_ops].
  - unfold ret. now rewrite app_nil_r, set_input_same.
  - unfold bind. rewrite report_slot_spec, IH.
    destruct p; unfold set_input; cbn. now rewrite <- app_assoc.
Qed.

Lemma report_events_spec (td : struct_touchdata) (p : struct_ili2117) :
  ili2117_report_events td p = (tt, set_input (input p ++ report_ops td) p).
Proof.
  unfold ili2117_report_events, report_ops, bind.
  rewrite for_range_report. unfold emit.
  destruct p; unfold set_input; cbn. now rewrite <- !app_assoc.
Qed.

Lemma skipn_length_app {A} (l r : list A) : skipn (List.length l) (l ++ r) = r.
Proof. induction l; simpl; auto. Qed.

Lemma emitted_report_events (td : struct_touchdata) (p : struct_ili2117) :
  emitted (ili2117_report_events td) p = report_ops td.
Proof.
  unfold emitted, exec. rewrite report_events_spec. cbn [snd].
  destruct p; cbn. apply skipn_length_app.
Qed.

(** ** The consumer's reading of a report *)

Lemma slots_selected_body (td : struct_touchdata) (i : Z) (r : list input_op) :
  slots_selected (slot_body td i ++ r) = slots_selected r.
Proof. unfold slot_body. now destruct (touch_of td i). Qed.

Lemma slots_selected_range (td : struct_touchdata) (tail : list input_op) (n : nat) :
  forall i, slots_selected (range_ops td n i ++ tail) = Zseq i n ++ slots_selected tail.
Proof.
  induction n as [|n IH]; intros i; cbn [range_ops Zseq]; [reflexivity|].
  rewrite <- app_assoc. unfold slot_ops. cbn [app slots_selected].
  rewrite slots_selected_body, IH. reflexivity.
Qed.

Lemma addressed_from_body (td : struct_touchdata) (i j : Z) (r : list input_op) :
  addressed_from (Some j) i (slot_body td j ++ r) =
  (if j =? i then slot_body td j else []) ++ addressed_from (Some j) i r.
Proof.
  unfold slot_body.
  destruct (touch_of td j); cbn [app addressed_from]; destruct (j =? i); reflexivity.
Qed.

Section Tail.

Variables (i : Z) (tail : list input_op).
Hypothesis tail_quiet : forall cur, addressed_from cur i tail = [].

Lemma addressed_range_miss (td : struct_touchdata) (n : nat) :
  forall j cur, i < j -> addressed_from cur i (range_ops td n j ++ tail) = [].
Proof using tail_quiet.
  induction n as [|n IH]; intros j cur Hj; cbn [range_ops]; [apply tail_quiet|].
  rewrite <- app_assoc. unfold slot_ops. cbn [app addressed_from].
  rewrite addressed_from_body.
  replace (j =? i) with false by (symmetry; apply Z.eqb_neq; lia).
  cbn [app]. apply IH. lia.
Qed.

Lemma addressed_range_hit (td : struct_touchdata) (n : nat) :
  forall j cur, j <= i < j + Z.of_nat n ->
    addressed_from cur i (range_ops td n j ++ tail) = slot_body td i.
Proof using tail_quiet.
  induction n as [|n IH]; intros j cur Hj; [lia|]. cbn [range_ops].
  rewrite <- app_assoc. unfold slot_ops. cbn [app addressed_from].
  rewrite addressed_from_body.
  destruct (Z.eqb_spec j i) as [->|Hne].
  - rewrite addressed_range_miss by lia. apply app_nil_r.
  - cbn [app]. apply IH. lia.
Qed.

End Tail.

Lemma addressed_report_ops (td : struct_touchdata) (i : Z) :
  0 <= i < MAX_TOUCHES -> addressed i (report_ops td) = slot_body td i.
Proof.
  intros Hi. unfold addressed, report_ops.
  apply addressed_range_hit; [reflexivity|]. unfold MAX_TOUCHES in *. lia.
Qed.

Lemma slots_selected_report_ops (td : struct_touchdata) :
  slots_selected (report_ops td) = Zseq 0 (Z.to_nat MAX_TOUCHES).
Proof.
  unfold report_ops. rewrite slots_selected_range. cbn [slots_selected].
  apply app_nil_r.
Qed.

Lemma contact_of_body (td : struct_touchdata) (i : Z) :
  contact_of (slot_body td i) = Some (contact_reported td i).
Proof. unfold slot_body, contact_reported. now destruct (touch_of td i). Qed.

Lemma Zseq_In (n : nat) : forall from i, In i (Zseq from n) <-> from <= i < from + Z.of_nat n.
Proof.
  induction n as [|n IH]; intros from i; cbn [Zseq In]; [lia|].
  rewrite IH. lia.
Qed.

Lemma flat_map_singleton {A B} (f : A -> list B) (g : A -> B) (l : list A) :
  (forall a, In a l -> f a = [g a]) -> flat_map f l = map g l.
Proof.
  induction l as [|a l IH]; intros H; cbn [flat_map map]; [reflexivity|].
  rewrite (H a) by now left. rewrite IH by (intros; apply H; now right).
  reflexivity.
Qed.

Lemma slot_events_report_ops (td : struct_touchdata) :
  slot_events (report_ops td) =
  map (fun i => mk_event i (contact_reported td i)) (Zseq 0 (Z.to_nat MAX_TOUCHES)).
Proof.
  unfold slot_events. rewrite slots_selected_report_ops.
  apply flat_map_singleton. intros i Hi.
  apply Zseq_In in Hi.
  rewrite addressed_report_ops by (unfold MAX_TOUCHES in *; lia).
  now rewrite contact_of_body.
Qed.

(** ** One cycle of the worker *)

Lemma read_spec (bus : i2c_result) (len : Z) (p : struct_ili2117) :
  ili2117_read bus len p =
  if xfer_ret bus =? 1
  then ((0, xfer_buf bus), transfer_logged len p)
  else ((- EIO, xfer_buf bus),
        errors_logged [("i2c transfer failed\n", [])] (transfer_logged len p)).
Proof.
  unfold ili2117_read, bind, gets, i2c_transfer, dev_err, ret,
    transfer_logged, errors_logged.
  cbn [fst snd]. destruct (xfer_ret bus =? 1); reflexivity.
Qed.

Lemma work_failure (bus : i2c_result) (p : struct_ili2117) :
  xfer_ret bus <> 1 ->
  exec (ili2117_work bus) p =
  errors_logged transfer_failed (transfer_logged sizeof_touchdata p).
Proof.
  intros H. unfold exec, ili2117_work, bind. rewrite read_spec.
  apply Z.eqb_neq in H. rewrite H. cbn [fst snd negb Z.eqb EIO Z.opp].
  unfold dev_err, errors_logged, transfer_logged, transfer_failed.
  destruct p as [[a t l] inp pp w]; cbn. now rewrite <- app_assoc.
Qed.

Lemma work_success (bus : i2c_result) (p : struct_ili2117) :
  xfer_ret bus = 1 ->
  exec (ili2117_work bus) p =
  let td := touchdata_of (xfer_buf bus) in
  let p' := set_input (input p ++ report_ops td) (transfer_logged sizeof_touchdata p) in
  if packet_id td =? 0x5a
  then exec (schedule_delayed_work (msecs_to_jiffies (poll_period p))) p'
  else p'.
Proof.
  intros H. unfold exec, ili2117_work, bind. rewrite read_spec, H.
  cbn [Z.eqb Pos.eqb fst snd negb]. rewrite report_events_spec.
  destruct (packet_id (touchdata_of (xfer_buf bus)) =? 90); [|reflexivity].
  unfold gets, ret. cbn [set_input transfer_logged set_client poll_period].
  destruct (schedule_delayed_work _ _). reflexivity.
Qed.

Lemma schedule_spec (delay : Z) (p : struct_ili2117) :
  exec (schedule_delayed_work delay) p =
  set_dwork (mk_dwork true
               (if pending (dwork p) then timers (dwork p)
                else timers (dwork p) ++ [delay])
               (running (dwork p))
               (requests (dwork p) ++ [delay])) p.
Proof.
  unfold exec, schedule_delayed_work. now destruct (pending (dwork p)).
Qed.

Lemma irq_spec (p : struct_ili2117) :
  ili2117_irq p = (IRQ_HANDLED, exec (schedule_delayed_work 0) p).
Proof.
  unfold ili2117_irq, bind, exec, ret. now destruct (schedule_delayed_work 0 p).
Qed.

(** ** Reachable instances *)

Lemma well_scheduled_probed (a : Z) : well_scheduled (probed a).
Proof. split; [reflexivity|]. now left. Qed.

Lemma well_scheduled_schedule (delay : Z) (p : struct_ili2117) :
  well_scheduled p -> well_scheduled (exec (schedule_delayed_work delay) p).
Proof.
  intros [Hp H]. rewrite schedule_spec. split; [exact Hp|]. right.
  cbn [set_dwork dwork pending timers].
  destruct H as [[-> ->]|[-> [d ->]]]; (split; [reflexivity|]);
    [exists delay|exists d]; reflexivity.
Qed.

Lemma well_scheduled_step (e : event) (p p' : struct_ili2117) :
  step e p = Some p' -> well_scheduled p -> well_scheduled p'.
Proof.
  destruct e as [| |bus]; cbn [step].
  - intros [= <-] H. unfold exec. rewrite irq_spec. cbn [snd].
    now apply well_scheduled_schedule.
  - unfold worker_start. intros Hs [Hp H].
    destruct H as [[_ Ht]|[_ [d Ht]]]; rewrite Ht in Hs; [discriminate|].
    destruct (running (dwork p)); [discriminate|]. injection Hs as <-.
    split; [exact Hp|]. now left.
  - destruct (running (dwork p)); [|discriminate]. intros [= <-] H.
    assert (well_scheduled (exec (ili2117_work bus) p)) as [Hp' H'].
    { destruct (Z.eq_dec (xfer_ret bus) 1) as [Hr|Hr].
      - rewrite (work_success bus p Hr). cbv zeta.
        destruct (packet_id _ =? 90).
        + apply well_scheduled_schedule. exact H.
        + exact H.
      - rewrite (work_failure bus p Hr). exact H. }
    split; [exact Hp'|exact H'].
Qed.

Lemma well_scheduled_run (es : list event) :
  forall p p', run es p = Some p' -> well_scheduled p -> well_scheduled p'.
Proof.
  induction es as [|e es IH]; intros p p'; cbn [run].
  - now intros [= <-].
  - destruct (step e p) as [q|] eqn:Hq; [|discriminate].
    intros Hr Hp. eapply IH; [exact Hr|]. eapply well_scheduled_step; eauto.
Qed.

Lemma reachable_well_scheduled (p : struct_ili2117) :
  reachable p -> well_scheduled p.
Proof.
  intros (a & es & H). eapply well_scheduled_run; [exact H|].
  apply well_scheduled_probed.
Qed.

Lemma Zseq_nth_error (n : nat) :
  forall from k, (k < n)%nat -> nth_error (Zseq from n) k = Some (from + Z.of_nat k).
Proof.
  induction n as [|n IH]; intros from k Hk; [lia|].
  destruct k as [|k]; cbn [Zseq nth_error].
  - f_equal. lia.
  - rewrite IH by lia. f_equal. lia.
Qed.

Lemma touch_of_true (td : struct_touchdata) (i : Z) :
  touch_of td i = true <->
  packet_id td = 0x5a /\ checksum td <> 0xff /\ c_sum (finger_ref td i) <> 0xff.
Proof.
  unfold touch_of. rewrite !andb_true_iff, !negb_true_iff, Z.eqb_eq, !Z.eqb_neq.
  split; [intros [[H1 H2] H3]|intros (H1 & H2 & H3)]; auto.
Qed.

Lemma is_touching_reported (td : struct_touchdata) (i : Z) :
  is_touching (contact_reported td i) = touch_of td i.
Proof. unfold contact_reported. now destruct (touch_of td i). Qed.

(** ** Slot validity *)

(** C1.  In the report of any decoded frame, slot [i] (0..9) is told
    "touching" exactly when the frame's packet id is 0x5A, the frame
    checksum is not 0xFF and finger [i]'s checksum is not 0xFF; a wrong
    packet id or a frame checksum of 0xFF makes the slot released whatever
    the finger's own bytes are. *)
Theorem slot_touching_iff (buf : list byte) (p : struct_ili2117) (i : Z) :
  0 <= i < MAX_TOUCHES ->
  exists c : contact,
    nth_error (slot_events (emitted (ili2117_report_events (touchdata_of buf)) p))
              (Z.to_nat i) = Some (mk_event i c) /\
    hd_error (addressed i (emitted (ili2117_report_events (touchdata_of buf)) p)) =
      Some (input_mt_report_slot_state MT_TOOL_FINGER (is_touching c)) /\
    (is_touching c = true <->
       packet_id (touchdata_of buf) = 0x5a /\
       checksum (touchdata_of buf) <> 0xff /\
       c_sum (finger_ref (touchdata_of buf) i) <> 0xff) /\
    (packet_id (touchdata_of buf) <> 0x5a \/ checksum (touchdata_of buf) = 0xff ->
       c = Released).
Proof.
  intros Hi. set (td := touchdata_of buf).
  exists (contact_reported td i).
  rewrite emitted_report_events, slot_events_report_ops, addressed_report_ops by exact Hi.
  split; [|split; [|split]].
  - rewrite nth_error_map, Zseq_nth_error by (unfold MAX_TOUCHES in *; lia).
    cbn [option_map]. rewrite Z2Nat.id by lia. reflexivity.
  - unfold slot_body. cbn [hd_error]. now rewrite is_touching_reported.
  - rewrite is_touching_reported. apply touch_of_true.
  - intros H. unfold contact_reported.
    destruct (touch_of td i) eqn:Ht; [|reflexivity].
    apply touch_of_true in Ht. destruct Ht as (H1 & H2 & _).
    destruct H as [H|H]; [now elim H|now elim H2].
Qed.

(** ** Full snapshot *)

(** C3.  Every report, whatever the instance has been through before,
    selects the slots 0, 1, ..., 9 once each and in this order, tells each
    of them its state, and so yields exactly one event per slot; the calls
    do not depend on what was reported earlier. *)
Theorem report_is_full_snapshot (buf : list byte) (p : struct_ili2117) :
  slots_selected (emitted (ili2117_report_events (touchdata_of buf)) p) =
    [0; 1; 2; 3; 4; 5; 6; 7; 8; 9] /\
  map slot_index (slot_events (emitted (ili2117_report_events (touchdata_of buf)) p)) =
    [0; 1; 2; 3; 4; 5; 6; 7; 8; 9] /\
  List.length (slot_events (emitted (ili2117_report_events (touchdata_of buf)) p)) = 10%nat /\
  Forall (fun i => exists active,
            hd_error (addressed i (emitted (ili2117_report_events (touchdata_of buf)) p)) =
            Some (input_mt_report_slot_state MT_TOOL_FINGER active))
         [0; 1; 2; 3; 4; 5; 6; 7; 8; 9] /\
  emitted (ili2117_report_events (touchdata_of buf)) p =
    emitted (ili2117_report_events (touchdata_of buf)) (probed (addr (client p))) /\
  input (exec (ili2117_report_events (touchdata_of buf)) p) =
    input p ++ emitted (ili2117_report_events (touchdata_of buf)) p.
Proof.
  rewrite !emitted_report_events, slot_events_report_ops, slots_selected_report_ops.
  split; [reflexivity|].
  split; [rewrite map_map; reflexivity|].
  split; [rewrite length_map; reflexivity|].
  split; [|split; [reflexivity|]].
  - apply Forall_forall. intros i Hi. exists (touch_of (touchdata_of buf) i).
    rewrite addressed_report_ops; [reflexivity|].
    apply (Zseq_In 10 0 i) in Hi. unfold MAX_TOUCHES. lia.
  - unfold exec. rewrite report_events_spec. now destruct p.
Qed.

(** ** Coordinates *)

Lemma land_low_shifted (a b : Z) : 0 <= a < 256 -> Z.land a (Z.shiftl b 8) = 0.
Proof.
  intros Ha. apply Z.bits_inj'. intros n Hn.
  rewrite Z.land_spec, Z.bits_0.
  destruct (Z.lt_ge_cases n 8) as [Hlt|Hge].
  - rewrite Z.shiftl_spec_low by lia. apply andb_false_r.
  - replace (Z.testbit a n) with false; [reflexivity|]. symmetry.
    destruct (Z.eq_dec a 0) as [->|Hnz]; [apply Z.bits_0|].
    apply Z.bits_above_log2; [lia|].
    apply Z.log2_lt_pow2; [lia|].
    apply Z.lt_le_trans with (2 ^ 8); [lia|].
    apply Z.pow_le_mono_r; lia.
Qed.

Lemma lor_shiftl_8 (a b : Z) :
  0 <= a < 256 -> Z.lor a (Z.shiftl b 8) = a + 256 * b.
Proof.
  intros Ha.
  rewrite <- Z.lxor_lor, <- Z.add_nocarry_lxor by now apply land_low_shifted.
  rewrite Z.shiftl_mul_pow2 by lia. change (2 ^ 8) with 256. lia.
Qed.

Lemma bitfield_range (b lo w : Z) : 0 <= w -> 0 <= bitfield b lo w < 2 ^ w.
Proof.
  intros Hw. unfold bitfield. rewrite Z.land_ones by exact Hw.
  apply Z.mod_pos_bound. apply Z.pow_pos_nonneg; lia.
Qed.

Lemma finger_at_ranges (buf : list byte) (base : Z) :
  0 <= y_hi (finger_at buf base) <= 15 /\
  0 <= x_hi (finger_at buf base) <= 15 /\
  0 <= x_lo (finger_at buf base) <= 255 /\
  0 <= y_lo (finger_at buf base) <= 255 /\
  0 <= c_sum (finger_at buf base) <= 255.
Proof.
  unfold finger_at, member; cbn [y_hi x_hi x_lo y_lo c_sum].
  repeat split;
    match goal with
    | |- context [bitfield ?b ?lo ?w] =>
        let w' := eval vm_compute in w in
        pose proof (bitfield_range b lo w') as H;
        change w with w' in *; cbn [Z.pow Z.pow_pos Pos.iter Z.mul Pos.mul] in H; lia
    end.
Qed.

(** The nibbles and bytes a finger is read from. *)
Lemma finger_at_members (buf : list byte) (base : Z) :
  finger_at buf base =
  {| y_hi := Z.land (byte_at buf (base + 0)) 15;
     x_hi := Z.land (Z.shiftr (byte_at buf (base + 0)) 4) 15;
     x_lo := Z.land (byte_at buf (base + 1)) 255;
     y_lo := Z.land (byte_at buf (base + 2)) 255;
     c_sum := Z.land (byte_at buf (base + 3)) 255 |}.
Proof. reflexivity. Qed.

(** C4 (amended).  For finger [i] of any frame the reported coordinates are
    exactly [x_lo | (x_hi << 8)] and [y_lo | (y_hi << 8)], with nothing
    clamped; with [x_hi] in 0..15 and [x_lo] in 0..255 the value lies in
    0..4095, and it stays within 0..2047 exactly when the high nibble is at
    most 7. *)
Theorem coordinates_unclamped (buf : list byte) (p : struct_ili2117) (i : Z) :
  0 <= i < MAX_TOUCHES ->
  let f := finger_ref (touchdata_of buf) i in
  let x := Z.lor (x_lo f) (Z.shiftl (x_hi f) 8) in
  let y := Z.lor (y_lo f) (Z.shiftl (y_hi f) 8) in
  (0 <= x_hi f <= 15 /\ 0 <= x_lo f <= 255 /\
   0 <= y_hi f <= 15 /\ 0 <= y_lo f <= 255) /\
  (addressed i (emitted (ili2117_report_events (touchdata_of buf)) p) =
     [input_mt_report_slot_state MT_TOOL_FINGER false] \/
   addressed i (emitted (ili2117_report_events (touchdata_of buf)) p) =
     [input_mt_report_slot_state MT_TOOL_FINGER true;
      input_report_abs ABS_MT_POSITION_X x;
      input_report_abs ABS_MT_POSITION_Y y]) /\
  x = x_lo f + 256 * x_hi f /\
  y = y_lo f + 256 * y_hi f /\
  0 <= x <= 4095 /\
  0 <= y <= 4095 /\
  (x <= X_MAX <-> x_hi f <= 7) /\
  (y <= Y_MAX <-> y_hi f <= 7).
Proof.
  intros Hi f x y.
  assert (Hr : 0 <= y_hi f <= 15 /\ 0 <= x_hi f <= 15 /\
               0 <= x_lo f <= 255 /\ 0 <= y_lo f <= 255 /\ 0 <= c_sum f <= 255).
  { subst f. rewrite finger_ref_at by exact Hi. apply finger_at_ranges. }
  destruct Hr as (Hyh & Hxh & Hxl & Hyl & _).
  assert (Hx : x = x_lo f + 256 * x_hi f) by (subst x; apply lor_shiftl_8; lia).
  assert (Hy : y = y_lo f + 256 * y_hi f) by (subst y; apply lor_shiftl_8; lia).
  split; [repeat split; lia|]. split.
  - rewrite emitted_report_events, addressed_report_ops by exact Hi.
    unfold slot_body. destruct (touch_of (touchdata_of buf) i); [right|left]; reflexivity.
  - unfold X_MAX, Y_MAX. repeat split; lia.
Qed.

(** ** Frame size *)



Section SameBytes.

Variables b1 b2 : list byte.
Hypothesis same : forall off, 0 <= off < sizeof_touchdata -> byte_at b1 off = byte_at b2 off.




End SameBytes.


Lemma work_unfold (bus : i2c_result) (p : struct_ili2117) :
  exec (ili2117_work bus) p =
  if xfer_ret bus =? 1
  then
    let td := touchdata_of (xfer_buf bus) in
    let p' := set_input (input p ++ report_ops td) (transfer_logged sizeof_touchdata p) in
    if packet_id td =? 0x5a
    then exec (schedule_delayed_work (msecs_to_jiffies (poll_period p))) p'
    else p'
  else errors_logged transfer_failed (transfer_logged sizeof_touchdata p).
Proof.
  destruct (Z.eqb_spec (xfer_ret bus) 1) as [H|H].
  - now apply work_success.
  - now apply work_failure.
Qed.



(** ** Scheduling *)

(** C7.  Every interrupt is accepted, and the handler does one thing: it
    asks for the work to be scheduled with a delay of zero.  It reads
    nothing from the bus, reports nothing to the input core, logs nothing,
    and returns [IRQ_HANDLED]. *)
Theorem irq_requests_immediate_read (p : struct_ili2117) :
  step Interrupt p = Some (exec ili2117_irq p) /\
  fst (ili2117_irq p) = IRQ_HANDLED /\
  requests (dwork (exec ili2117_irq p)) = requests (dwork p) ++ [0] /\
  input (exec ili2117_irq p) = input p /\
  client (exec ili2117_irq p) = client p /\
  poll_period (exec ili2117_irq p) = poll_period p /\
  running (dwork (exec ili2117_irq p)) = running (dwork p) /\
  pending (dwork (exec ili2117_irq p)) = true /\
  timers (dwork (exec ili2117_irq p)) =
    (if pending (dwork p) then timers (dwork p) else timers (dwork p) ++ [0]).
Proof.
  cbn [step]. unfold exec. rewrite irq_spec. cbn [fst snd]. rewrite schedule_spec.
  destruct p as [c inp pp [pe ti ru rq]]. cbn.
  repeat split; reflexivity.
Qed.

(** C2 (amended).  When a cycle's transfer succeeded, the work function
    asks for exactly one further read, [msecs_to_jiffies 20] ticks later, if
    the frame's packet id is 0x5A, and asks for nothing otherwise; checksums
    and touch states play no part.  A request that an interrupt left
    pending while the cycle was in flight stays as it is; the scheduler is
    idle after the cycle exactly when there was none and the packet id is
    another one. *)
Theorem poll_continues_iff_packet_id (p p' : struct_ili2117) (bus : i2c_result) :
  reachable p ->
  step (WorkerFinish bus) p = Some p' ->
  xfer_ret bus = 1 ->
  requests (dwork p') =
    requests (dwork p) ++
    (if packet_id (touchdata_of (xfer_buf bus)) =? 0x5a
     then [msecs_to_jiffies 20] else []) /\
  timers (dwork p') =
    (if pending (dwork p) then timers (dwork p)
     else if packet_id (touchdata_of (xfer_buf bus)) =? 0x5a
          then [msecs_to_jiffies 20] else []) /\
  pending (dwork p') =
    pending (dwork p) || (packet_id (touchdata_of (xfer_buf bus)) =? 0x5a) /\
  (idle p' <->
   pending (dwork p) = false /\
   packet_id (touchdata_of (xfer_buf bus)) <> 0x5a) /\
  input p' = input p ++ report_ops (touchdata_of (xfer_buf bus)).
Proof.
  intros Hreach Hstep Hret.
  destruct (reachable_well_scheduled p Hreach) as [Hpp Hsch].
  cbn [step] in Hstep. destruct (running (dwork p)); [|discriminate].
  injection Hstep as <-. rewrite work_success by exact Hret. cbv zeta.
  rewrite Hpp. change DEFAULT_POLL_PERIOD with 20.
  set (td := touchdata_of (xfer_buf bus)). clearbody td.
  unfold idle.
  destruct (Z.eqb_spec (packet_id td) 90) as [He|He];
    rewrite ?schedule_spec; unfold worker_done;
    destruct p as [[a t l] inp pp [pe ti ru rq]];
    cbn in Hsch |- *;
    destruct Hsch as [[-> ->]|[-> [d ->]]]; cbn; rewrite ?app_nil_r;
    (split; [reflexivity|]); (split; [reflexivity|]); (split; [reflexivity|]);
    (split; [|reflexivity]);
    (split; [intros (Hp & Ht & Hr); try discriminate;
                   (split; [reflexivity|assumption])
            |intros (Hp & Hid); try discriminate; try contradiction; repeat split]).
Qed.


(** ** Coalescing *)

Lemma run_app (es1 es2 : list event) :
  forall p, run (es1 ++ es2) p =
            match run es1 p with
            | Some q => run es2 q
            | None => None
            end.
Proof.
  induction es1 as [|e es1 IH]; intros p; cbn [app run]; [reflexivity|].
  destruct (step e p); [apply IH|reflexivity].
Qed.

Lemma two_interrupts (p : struct_ili2117) :
  idle p ->
  run [Interrupt; Interrupt] p =
  Some (set_dwork (mk_dwork true [0] false ((requests (dwork p) ++ [0]) ++ [0])) p).
Proof.
  intros (Hp & Ht & Hr).
  destruct p as [c inp pp [pe ti ru rq]]; cbn in Hp, Ht, Hr; subst.
  reflexivity.
Qed.

Lemma cycle_after_start (bus : i2c_result) (c : i2c_client) (inp : input_dev)
      (pp : Z) (rq : list Z) :
  let q := worker_done (exec (ili2117_work bus)
                             (mk_ili2117 c inp pp (mk_dwork false [] true rq))) in
  transfers (client q) = transfers c ++ [mk_msg (addr c) I2C_M_RD sizeof_touchdata] /\
  outstanding q <= 1 /\
  ((xfer_ret bus =? 1) && (packet_id (touchdata_of (xfer_buf bus)) =? 0x5a) = false ->
   idle q).
Proof.
  cbv zeta. rewrite work_unfold. unfold idle, outstanding.
  set (td := touchdata_of (xfer_buf bus)). clearbody td.
  destruct (xfer_ret bus =? 1); [cbv zeta; destruct (packet_id td =? 90)|];
    rewrite ?schedule_spec; destruct c as [a t l]; cbn;
    (split; [reflexivity|]); (split; [lia|]); intros H;
    try discriminate; repeat split.
Qed.

(** C6.  In every reachable instance at most one read is outstanding, and
    one is outstanding exactly when the pending bit is set.  An interrupt
    that finds a read pending leaves the armed timer as it is.  Two
    interrupts on an idle instance arm one immediate read: the worker can
    start once and not twice, and the cycle makes one transfer; unless that
    cycle asks for the next poll, the instance is idle afterwards. *)
Theorem at_most_one_read_outstanding (p : struct_ili2117) (bus : i2c_result) :
  reachable p ->
  outstanding p <= 1 /\
  (outstanding p = 1 <-> pending (dwork p) = true) /\
  (pending (dwork p) = true ->
   timers (dwork (exec ili2117_irq p)) = timers (dwork p) /\
   outstanding (exec ili2117_irq p) = 1) /\
  (idle p ->
   (exists q, run [Interrupt; Interrupt] p = Some q /\
              timers (dwork q) = [0] /\ outstanding q = 1) /\
   run [Interrupt; Interrupt; WorkerStart; WorkerStart] p = None /\
   (exists q, run [Interrupt; Interrupt; WorkerStart; WorkerFinish bus] p = Some q /\
              List.length (transfers (client q)) =
                S (List.length (transfers (client p))) /\
              outstanding q <= 1 /\
              ((xfer_ret bus =? 1) &&
               (packet_id (touchdata_of (xfer_buf bus)) =? 0x5a) = false ->
               idle q))).
Proof.
  intros Hreach.
  destruct (reachable_well_scheduled p Hreach) as [_ Hsch].
  unfold outstanding.
  split; [|split; [|split]].
  - destruct Hsch as [[_ ->]|[_ [d ->]]]; cbn; lia.
  - destruct Hsch as [[-> ->]|[-> [d ->]]]; cbn; split; intros; (lia || congruence).
  - intros Hp. unfold exec. rewrite irq_spec. cbn [snd]. rewrite schedule_spec.
    cbn [set_dwork dwork timers]. rewrite Hp.
    destruct Hsch as [[Hf _]|[_ [d ->]]]; [congruence|]. split; reflexivity.
  - intros Hidle.
    change [Interrupt; Interrupt; WorkerStart; WorkerStart]
      with ([Interrupt; Interrupt] ++ [WorkerStart; WorkerStart]).
    change [Interrupt; Interrupt; WorkerStart; WorkerFinish bus]
      with ([Interrupt; Interrupt] ++ [WorkerStart; WorkerFinish bus]).
    rewrite !run_app, (two_interrupts p Hidle).
    split; [eexists; split; [reflexivity|split; reflexivity]|].
    destruct p as [c inp pp [pe ti ru rq]].
    split; [reflexivity|].
    cbn [run step worker_start set_dwork dwork timers running client input
         poll_period pending requests].
    eexists; split; [reflexivity|].
    destruct (cycle_after_start bus c inp pp ((rq ++ [0]) ++ [0])) as (Ht & Ho & Hi).
    cbv zeta in Ht, Ho, Hi. unfold outstanding in Ho.
    split; [|split; [exact Ho|exact Hi]].
    unfold set_dwork; cbn [client input poll_period dwork requests].
    rewrite Ht, length_app. cbn. lia.
Qed.

(** ** What the output depends on *)

Lemma range_ops_agree (t1 t2 : struct_touchdata) (n : nat) :
  forall j, (forall i, j <= i < j + Z.of_nat n -> slot_ops t1 i = slot_ops t2 i) ->
    range_ops t1 n j = range_ops t2 n j.
Proof.
  induction n as [|n IH]; intros j H; cbn [range_ops]; [reflexivity|].
  rewrite (H j) by lia. rewrite IH; [reflexivity|].
  intros i Hi. apply H. lia.
Qed.

Lemma emitted_work_success (bus : i2c_result) (p : struct_ili2117) :
  xfer_ret bus = 1 ->
  emitted (ili2117_work bus) p = report_ops (touchdata_of (xfer_buf bus)).
Proof.
  intros H. unfold emitted. rewrite work_success by exact H. cbv zeta.
  destruct (packet_id _ =? 90); rewrite ?schedule_spec;
    destruct p as [[a t l] inp pp w]; cbn [set_dwork set_input transfer_logged
      set_client input client poll_period dwork]; apply skipn_length_app.
Qed.

(** C10.  Two frames that agree on the packet id, on the frame checksum, on
    every finger's checksum and on the coordinate members of the fingers
    whose checksum is not 0xFF leave the instance in the same state: the
    same calls into the input core, the same slot events and the same
    scheduling request.  The key/proximity byte and the coordinates of
    fingers with the sentinel checksum play no part, and a slot that is
    told "released" is told nothing else. *)
Theorem released_bytes_do_not_matter (b1 b2 : list byte) (p : struct_ili2117) :
  packet_id (touchdata_of b1) = packet_id (touchdata_of b2) ->
  checksum (touchdata_of b1) = checksum (touchdata_of b2) ->
  (forall i, 0 <= i < MAX_TOUCHES ->
     c_sum (finger_ref (touchdata_of b1) i) = c_sum (finger_ref (touchdata_of b2) i)) ->
  (forall i, 0 <= i < MAX_TOUCHES ->
     c_sum (finger_ref (touchdata_of b1) i) <> 0xff ->
     x_hi (finger_ref (touchdata_of b1) i) = x_hi (finger_ref (touchdata_of b2) i) /\
     y_hi (finger_ref (touchdata_of b1) i) = y_hi (finger_ref (touchdata_of b2) i) /\
     x_lo (finger_ref (touchdata_of b1) i) = x_lo (finger_ref (touchdata_of b2) i) /\
     y_lo (finger_ref (touchdata_of b1) i) = y_lo (finger_ref (touchdata_of b2) i)) ->
  exec (ili2117_work (mk_result 1 b1)) p = exec (ili2117_work (mk_result 1 b2)) p /\
  emitted (ili2117_work (mk_result 1 b1)) p = emitted (ili2117_work (mk_result 1 b2)) p /\
  slot_events (emitted (ili2117_work (mk_result 1 b1)) p) =
    slot_events (emitted (ili2117_work (mk_result 1 b2)) p) /\
  requests (dwork (exec (ili2117_work (mk_result 1 b1)) p)) =
    requests (dwork (exec (ili2117_work (mk_result 1 b2)) p)) /\
  (forall i, 0 <= i < MAX_TOUCHES ->
     hd_error (addressed i (emitted (ili2117_work (mk_result 1 b1)) p)) =
       Some (input_mt_report_slot_state MT_TOOL_FINGER false) ->
     addressed i (emitted (ili2117_work (mk_result 1 b1)) p) =
       [input_mt_report_slot_state MT_TOOL_FINGER false]).
Proof.
  intros Hid Hsum Hc Hxy.
  set (t1 := touchdata_of b1) in *. set (t2 := touchdata_of b2) in *.
  assert (Hops : report_ops t1 = report_ops t2).
  { unfold report_ops. f_equal. apply range_ops_agree. intros i Hi.
    assert (Hi' : 0 <= i < MAX_TOUCHES) by (unfold MAX_TOUCHES in *; lia).
    assert (Ht : touch_of t1 i = touch_of t2 i).
    { unfold touch_of. now rewrite Hid, Hsum, (Hc i Hi'). }
    unfold slot_ops, slot_body. rewrite <- Ht.
    destruct (touch_of t1 i) eqn:Hon; [|reflexivity].
    apply touch_of_true in Hon. destruct Hon as (_ & _ & Hne).
    destruct (Hxy i Hi' Hne) as (Hxh & Hyh & Hxl & Hyl).
    unfold finger_x, finger_y. now rewrite Hxh, Hyh, Hxl, Hyl. }
  assert (Hexec : exec (ili2117_work (mk_result 1 b1)) p =
                  exec (ili2117_work (mk_result 1 b2)) p).
  { rewrite !work_success by reflexivity. cbn [xfer_buf]. cbv zeta.
    fold t1 t2. now rewrite Hops, Hid. }
  split; [exact Hexec|].
  rewrite !emitted_work_success by reflexivity. cbn [xfer_buf]. fold t1 t2.
  rewrite Hexec, Hops.
  split; [reflexivity|]. split; [reflexivity|]. split; [reflexivity|].
  intros i Hi. rewrite addressed_report_ops by exact Hi.
  unfold slot_body. destruct (touch_of t2 i); cbn [hd_error]; [discriminate|reflexivity].
Qed.

(** * Further properties of the driver *)

(** ** Wire format *)

Lemma nibbles_of_byte (b : Z) :
  0 <= b <= 255 ->
  Z.land b 15 = b mod 16 /\ Z.land (Z.shiftr b 4) 15 = b / 16.
Proof.
  intros Hb. change 15 with (Z.ones 4).
  rewrite !Z.land_ones, Z.shiftr_div_pow2 by lia. change (2 ^ 4) with 16.
  split; [reflexivity|]. apply Z.mod_small.
  split; [apply Z.div_pos; lia|apply Z.div_lt_upper_bound; lia].
Qed.

(** X1.  Where the members of a frame sit: the packet id is byte 0, the
    frame checksum byte 42, the key and proximity masks the two nibbles of
    byte 41, and finger [i] takes bytes 4i+1 .. 4i+4: the high nibble of
    the first is the top of x, its low nibble the top of y, then the low
    bytes of x and y, then the finger checksum. *)
Theorem frame_wire_format (buf : list byte) (i : Z) :
  0 <= i < MAX_TOUCHES ->
  packet_id (touchdata_of buf) = byte_at buf 0 /\
  checksum (touchdata_of buf) = byte_at buf 42 /\
  key (touchdata_of buf) = byte_at buf 41 mod 16 /\
  p_sensor (touchdata_of buf) = byte_at buf 41 / 16 /\
  c_sum (finger_ref (touchdata_of buf) i) = byte_at buf (4 * i + 4) /\
  Z.lor (x_lo (finger_ref (touchdata_of buf) i))
        (Z.shiftl (x_hi (finger_ref (touchdata_of buf) i)) 8) =
    byte_at buf (4 * i + 2) + 256 * (byte_at buf (4 * i + 1) / 16) /\
  Z.lor (y_lo (finger_ref (touchdata_of buf) i))
        (Z.shiftl (y_hi (finger_ref (touchdata_of buf) i)) 8) =
    byte_at buf (4 * i + 3) + 256 * (byte_at buf (4 * i + 1) mod 16).
Proof.
  intros Hi.
  rewrite finger_ref_at by exact Hi. rewrite finger_at_members.
  cbn [c_sum x_lo x_hi y_lo y_hi].
  replace (1 + i * 4 + 0) with (4 * i + 1) by lia.
  replace (1 + i * 4 + 1) with (4 * i + 2) by lia.
  replace (1 + i * 4 + 2) with (4 * i + 3) by lia.
  replace (1 + i * 4 + 3) with (4 * i + 4) by lia.
  pose proof (byte_at_range buf (4 * i + 1)) as H1.
  pose proof (byte_at_range buf (4 * i + 2)) as H2.
  pose proof (byte_at_range buf (4 * i + 3)) as H3.
  pose proof (byte_at_range buf 41) as H41.
  destruct (nibbles_of_byte _ H1) as [Hlo Hhi].
  destruct (nibbles_of_byte _ H41) as [Hk Hp].
  rewrite !land_255 by apply byte_at_range. rewrite Hlo, Hhi.
  rewrite !lor_shiftl_8 by lia.
  split; [apply land_255, byte_at_range|].
  split; [apply land_255, byte_at_range|].
  split; [exact Hk|]. split; [exact Hp|].
  repeat split; reflexivity.
Qed.

Lemma byte_of_nibbles (b : Z) :
  0 <= b <= 255 -> b = Z.land b 15 + 16 * Z.land (Z.shiftr b 4) 15.
Proof.
  intros Hb. destruct (nibbles_of_byte b Hb) as [-> ->].
  rewrite Z.add_comm. apply Z.div_mod. lia.
Qed.

Lemma u8_inj (a b : byte) : u8 a = u8 b -> a = b.
Proof.
  unfold u8. intros H. apply N2Z.inj in H.
  pose proof (Byte.of_to_N a) as Ha. rewrite H, Byte.of_to_N in Ha.
  now injection Ha.
Qed.

Lemma finger_at_bytes (b1 b2 : list byte) (base : Z) :
  finger_at b1 base = finger_at b2 base ->
  byte_at b1 (base + 0) = byte_at b2 (base + 0) /\
  byte_at b1 (base + 1) = byte_at b2 (base + 1) /\
  byte_at b1 (base + 2) = byte_at b2 (base + 2) /\
  byte_at b1 (base + 3) = byte_at b2 (base + 3).
Proof.
  rewrite !finger_at_members. intros [= Hyh Hxh Hxl Hyl Hc].
  rewrite !land_255 in Hxl, Hyl, Hc by apply byte_at_range.
  split; [|now repeat split].
  rewrite (byte_of_nibbles (byte_at b1 (base + 0))) by apply byte_at_range.
  rewrite (byte_of_nibbles (byte_at b2 (base + 0))) by apply byte_at_range.
  now rewrite Hyh, Hxh.
Qed.

Lemma touchdata_of_bytes (b1 b2 : list byte) :
  touchdata_of b1 = touchdata_of b2 ->
  forall off, 0 <= off < sizeof_touchdata -> byte_at b1 off = byte_at b2 off.
Proof.
  intros H off Hoff. change sizeof_touchdata with 43 in Hoff.
  assert (Hf : forall i, 0 <= i < MAX_TOUCHES ->
                 finger_at b1 (1 + i * 4) = finger_at b2 (1 + i * 4)).
  { intros i Hi. rewrite <- !finger_ref_at by exact Hi. now rewrite H. }
  assert (Hid : packet_id (touchdata_of b1) = packet_id (touchdata_of b2)) by now rewrite H.
  assert (Hcs : checksum (touchdata_of b1) = checksum (touchdata_of b2)) by now rewrite H.
  assert (Hk : key (touchdata_of b1) = key (touchdata_of b2)) by now rewrite H.
  assert (Hp : p_sensor (touchdata_of b1) = p_sensor (touchdata_of b2)) by now rewrite H.
  rewrite !packet_id_at in Hid. rewrite !checksum_at in Hcs.
  rewrite !land_255 in Hid, Hcs by apply byte_at_range.
  destruct (Z.eq_dec off 0) as [->|H0]; [exact Hid|].
  destruct (Z.eq_dec off 42) as [->|H42]; [exact Hcs|].
  destruct (Z.eq_dec off 41) as [->|H41].
  - change (key (touchdata_of b1)) with (Z.land (byte_at b1 41) 15) in Hk.
    change (key (touchdata_of b2)) with (Z.land (byte_at b2 41) 15) in Hk.
    change (p_sensor (touchdata_of b1)) with (Z.land (Z.shiftr (byte_at b1 41) 4) 15) in Hp.
    change (p_sensor (touchdata_of b2)) with (Z.land (Z.shiftr (byte_at b2 41) 4) 15) in Hp.
    rewrite (byte_of_nibbles (byte_at b1 41)) by apply byte_at_range.
    rewrite (byte_of_nibbles (byte_at b2 41)) by apply byte_at_range.
    now rewrite Hk, Hp.
  - assert (Hi : 0 <= (off - 1) / 4 < MAX_TOUCHES).
    { unfold MAX_TOUCHES. split; [apply Z.div_pos; lia|apply Z.div_lt_upper_bound; lia]. }
    destruct (finger_at_bytes b1 b2 _ (Hf _ Hi)) as (E0 & E1 & E2 & E3).
    pose proof (Z.div_mod (off - 1) 4 ltac:(lia)) as Hdm.
    pose proof (Z.mod_pos_bound (off - 1) 4 ltac:(lia)) as Hm.
    assert (Hcase : (off - 1) mod 4 = 0 \/ (off - 1) mod 4 = 1 \/
                    (off - 1) mod 4 = 2 \/ (off - 1) mod 4 = 3) by lia.
    destruct Hcase as [Hc|[Hc|[Hc|Hc]]].
    + replace off with (1 + (off - 1) / 4 * 4 + 0) by lia. exact E0.
    + replace off with (1 + (off - 1) / 4 * 4 + 1) by lia. exact E1.
    + replace off with (1 + (off - 1) / 4 * 4 + 2) by lia. exact E2.
    + replace off with (1 + (off - 1) / 4 * 4 + 3) by lia. exact E3.
Qed.

(** X2.  The members of [struct touchdata] cover all 43 bytes of a frame:
    two frames of that size that decode to the same members are the same
    bytes. *)
Theorem decode_loses_nothing (b1 b2 : list byte) :
  List.length b1 = 43%nat ->
  List.length b2 = 43%nat ->
  touchdata_of b1 = touchdata_of b2 ->
  b1 = b2.
Proof.
  intros L1 L2 H.
  apply (nth_ext b1 b2 x00 x00); [congruence|].
  intros n Hn. apply u8_inj.
  pose proof (touchdata_of_bytes b1 b2 H (Z.of_nat n)) as Hb.
  unfold byte_at in Hb. rewrite Nat2Z.id in Hb. apply Hb.
  change sizeof_touchdata with 43. lia.
Qed.

(** ** Shape of a report *)

Lemma slot_ops_length (td : struct_touchdata) (i : Z) :
  List.length (slot_ops td i) = (if touch_of td i then 4 else 2)%nat.
Proof. unfold slot_ops, slot_body. now destruct (touch_of td i). Qed.

Lemma range_ops_length (td : struct_touchdata) (n : nat) :
  forall j, List.length (range_ops td n j) =
            (2 * n + 2 * List.length (filter (touch_of td) (Zseq j n)))%nat.
Proof.
  induction n as [|n IH]; intros j; cbn [range_ops Zseq filter]; [reflexivity|].
  rewrite length_app, slot_ops_length, IH.
  destruct (touch_of td j); cbn [List.length]; lia.
Qed.

Lemma range_ops_no_sync (td : struct_touchdata) (n : nat) :
  forall j, filter is_sync (range_ops td n j) = [].
Proof.
  induction n as [|n IH]; intros j; cbn [range_ops]; [reflexivity|].
  rewrite filter_app, IH. unfold slot_ops, slot_body.
  now destruct (touch_of td j).
Qed.

(** X3.  A report is 22 calls plus 2 for every touching slot, so between 22
    and 42 calls; it contains exactly one [input_sync], and it ends with the
    pointer emulation call followed by that sync. *)
Theorem report_length (buf : list byte) (p : struct_ili2117) :
  Z.of_nat (List.length (emitted (ili2117_report_events (touchdata_of buf)) p)) =
    22 + 2 * touching_slots (touchdata_of buf) /\
  0 <= touching_slots (touchdata_of buf) <= 10 /\
  filter is_sync (emitted (ili2117_report_events (touchdata_of buf)) p) = [input_sync] /\
  skipn (List.length (emitted (ili2117_report_events (touchdata_of buf)) p) - 2)
        (emitted (ili2117_report_events (touchdata_of buf)) p) =
    [input_mt_report_pointer_emulation false; input_sync].
Proof.
  rewrite emitted_report_events. set (td := touchdata_of buf).
  unfold report_ops, touching_slots.
  pose proof (filter_length_le (touch_of td) (Zseq 0 (Z.to_nat MAX_TOUCHES))) as Hle.
  assert (Hn : List.length (Zseq 0 (Z.to_nat MAX_TOUCHES)) = 10%nat) by reflexivity.
  split; [|split; [|split]].
  - rewrite length_app, range_ops_length. cbn [List.length].
    change (Z.to_nat MAX_TOUCHES) with 10%nat. lia.
  - lia.
  - rewrite filter_app, range_ops_no_sync. reflexivity.
  - rewrite length_app. cbn [List.length].
    replace (List.length (range_ops td (Z.to_nat MAX_TOUCHES) 0) + 2 - 2)%nat
      with (List.length (range_ops td (Z.to_nat MAX_TOUCHES) 0)) by lia.
    apply skipn_length_app.
Qed.

Lemma range_ops_released (td : struct_touchdata) (n : nat) :
  forall j, (forall i, j <= i < j + Z.of_nat n -> touch_of td i = false) ->
    range_ops td n j =
    flat_map (fun i => [input_mt_slot i;
                        input_mt_report_slot_state MT_TOOL_FINGER false])
             (Zseq j n).
Proof.
  induction n as [|n IH]; intros j H; cbn [range_ops Zseq flat_map]; [reflexivity|].
  rewrite IH by (intros i Hi; apply H; lia).
  unfold slot_ops, slot_body. rewrite (H j) by lia. reflexivity.
Qed.

Lemma addressed_all_released (i : Z) :
  0 <= i < MAX_TOUCHES ->
  addressed i all_released = [input_mt_report_slot_state MT_TOOL_FINGER false].
Proof.
  intros Hi.
  assert (Hc : i = 0 \/ i = 1 \/ i = 2 \/ i = 3 \/ i = 4 \/
               i = 5 \/ i = 6 \/ i = 7 \/ i = 8 \/ i = 9)
    by (unfold MAX_TOUCHES in Hi; lia).
  destruct Hc as [->|[->|[->|[->|[->|[->|[->|[->|[->| ->]]]]]]]]]; reflexivity.
Qed.

Lemma touch_of_false (td : struct_touchdata) (i : Z) :
  touch_of td i = false <->
  packet_id td <> 0x5a \/ checksum td = 0xff \/ c_sum (finger_ref td i) = 0xff.
Proof.
  unfold touch_of.
  destruct (Z.eqb_spec (packet_id td) 90) as [H1|H1];
    destruct (Z.eqb_spec (checksum td) 255) as [H2|H2];
    destruct (Z.eqb_spec (c_sum (finger_ref td i)) 255) as [H3|H3];
    cbn; split; intros H; auto; try discriminate;
    destruct H as [H'|[H'|H']]; contradiction.
Qed.

(** X4.  The report is the fixed all-released sequence (ten slots told
    "released", no position, then pointer emulation and sync) exactly for
    the frames in which no slot can touch: another packet id, the sentinel
    frame checksum, or the sentinel checksum in every finger. *)
Theorem all_released_iff (buf : list byte) (p : struct_ili2117) :
  emitted (ili2117_report_events (touchdata_of buf)) p = all_released <->
  (packet_id (touchdata_of buf) <> 0x5a \/
   checksum (touchdata_of buf) = 0xff \/
   forall i, 0 <= i < MAX_TOUCHES -> c_sum (finger_ref (touchdata_of buf) i) = 0xff).
Proof.
  rewrite emitted_report_events. set (td := touchdata_of buf).
  split.
  - intros H.
    assert (Hall : forall i, 0 <= i < MAX_TOUCHES -> touch_of td i = false).
    { intros i Hi.
      pose proof (addressed_report_ops td i Hi) as Ha.
      rewrite H, addressed_all_released in Ha by exact Hi.
      unfold slot_body in Ha. destruct (touch_of td i); [discriminate|reflexivity]. }
    destruct (Z.eq_dec (packet_id td) 90) as [H1|H1]; [|now left].
    destruct (Z.eq_dec (checksum td) 255) as [H2|H2]; [now right; left|].
    right; right. intros i Hi.
    destruct (proj1 (touch_of_false td i) (Hall i Hi)) as [E|[E|E]];
      [contradiction|contradiction|exact E].
  - intros H. unfold report_ops, all_released. f_equal.
    apply range_ops_released. intros i Hi. apply touch_of_false.
    destruct H as [H|[H|H]]; [now left|now right; left|].
    right; right. apply H. unfold MAX_TOUCHES. cbn in Hi. lia.
Qed.

(** ** Cycles *)

(** What one run of the work function changes. *)
Lemma work_effect (bus : i2c_result) (p : struct_ili2117) :
  client (exec (ili2117_work bus) p) =
    mk_client (addr (client p))
              (transfers (client p) ++ [mk_msg (addr (client p)) I2C_M_RD 43])
              (dev_log (client p) ++
               (if xfer_ret bus =? 1 then [] else transfer_failed)) /\
  input (exec (ili2117_work bus) p) =
    input p ++ (if xfer_ret bus =? 1
                then report_ops (touchdata_of (xfer_buf bus)) else []) /\
  poll_period (exec (ili2117_work bus) p) = poll_period p /\
  dwork (exec (ili2117_work bus) p) =
    (if continues bus
     then mk_dwork true
                   (if pending (dwork p) then timers (dwork p)
                    else timers (dwork p) ++ [msecs_to_jiffies (poll_period p)])
                   (running (dwork p))
                   (requests (dwork p) ++ [msecs_to_jiffies (poll_period p)])
     else dwork p).
Proof.
  rewrite work_unfold. unfold continues.
  destruct (xfer_ret bus =? 1); cbn [andb]; cbv zeta.
  - destruct (packet_id (touchdata_of (xfer_buf bus)) =? 90);
      rewrite ?schedule_spec; destruct p as [[a t l] inp pp w]; cbn;
      rewrite ?app_nil_r; repeat split; reflexivity.
  - destruct p as [[a t l] inp pp w]; cbn. rewrite app_nil_r.
    repeat split; reflexivity.
Qed.

(** X5.  A transfer counts as failed whenever [i2c_transfer] returns
    anything but 1, zero and larger counts included.  [ili2117_read] then
    returns -5 (-EIO) whatever the bus reported, and the cycle leaves the
    instance in the same state for every failure: the bus's own error
    number and the buffer contents do not show anywhere. *)
Theorem transfer_failures_alike (bus1 bus2 : i2c_result) (len : Z) (p : struct_ili2117) :
  xfer_ret bus1 <> 1 ->
  xfer_ret bus2 <> 1 ->
  fst (fst (ili2117_read bus1 len p)) = -5 /\
  snd (ili2117_read bus1 len p) = snd (ili2117_read bus2 len p) /\
  exec (ili2117_work bus1) p = exec (ili2117_work bus2) p.
Proof.
  intros H1 H2. rewrite !read_spec, !work_failure by assumption.
  apply Z.eqb_neq in H1, H2. rewrite H1, H2. repeat split.
Qed.

Lemma irq_effect (p : struct_ili2117) :
  exec ili2117_irq p =
  set_dwork (mk_dwork true
               (if pending (dwork p) then timers (dwork p)
                else timers (dwork p) ++ [0])
               (running (dwork p))
               (requests (dwork p) ++ [0])) p.
Proof. unfold exec. rewrite irq_spec. cbn [snd]. apply schedule_spec. Qed.

(** An invariant of the instance that every step keeps holds in every
    reachable instance. *)
Lemma reachable_ind (P : struct_ili2117 -> Prop) :
  (forall a, P (probed a)) ->
  (forall e p p', step e p = Some p' -> P p -> P p') ->
  forall p, reachable p -> P p.
Proof.
  intros Hinit Hstep p (a & es & Hrun).
  assert (H : forall es q q', run es q = Some q' -> P q -> P q').
  { clear - Hstep. induction es as [|e es IH]; intros q q'; cbn [run].
    - now intros [= <-].
    - destruct (step e q) as [q1|] eqn:Hq; [|discriminate].
      intros Hr Hq0. eapply IH; [exact Hr|]. eapply Hstep; eauto. }
  eapply H; [exact Hrun|apply Hinit].
Qed.

(** X6.  The driver only ever reads from the bus, always 43 bytes and
    always at the address of its own client, which never changes: in every
    reachable instance each message handed to [i2c_transfer] is that one
    read. *)
Theorem bus_is_only_read (p : struct_ili2117) :
  reachable p ->
  Forall (fun m => m = mk_msg (addr (client p)) I2C_M_RD sizeof_touchdata)
         (transfers (client p)).
Proof.
  apply (reachable_ind (fun p =>
    Forall (fun m => m = mk_msg (addr (client p)) I2C_M_RD sizeof_touchdata)
           (transfers (client p)))).
  - intros a. constructor.
  - intros e q q' Hs Hq. destruct e as [| |bus]; cbn [step] in Hs.
    + injection Hs as <-. rewrite irq_effect. exact Hq.
    + unfold worker_start in Hs. destruct (timers (dwork q)); [discriminate|].
      destruct (running (dwork q)); [discriminate|]. injection Hs as <-. exact Hq.
    + destruct (running (dwork q)); [|discriminate]. injection Hs as <-.
      destruct (work_effect bus q) as (Hc & _).
      unfold worker_done. cbn [set_dwork client]. rewrite Hc. cbn [addr transfers].
      apply Forall_app. split; [exact Hq|]. now constructor.
Qed.

Lemma concat_repeat_snoc {A} (x : list A) (n : nat) :
  List.concat (repeat x n) ++ x = List.concat (repeat x (S n)).
Proof.
  induction n as [|n IH]; cbn [repeat List.concat].
  - now rewrite app_nil_r.
  - rewrite <- app_assoc, IH. reflexivity.
Qed.

(** X7.  Every cycle makes one transfer and then either reports one whole
    frame or logs the two failure lines, never both and never a part: in
    every reachable instance the input calls are the complete reports of
    the frames received so far, in order, the device log is the failure
    pair once per failed transfer, and the transfers are as many as both
    together. *)
Theorem cycles_are_whole (p : struct_ili2117) :
  reachable p ->
  exists (frames : list (list byte)) (failures : nat),
    input p = flat_map (fun b => report_ops (touchdata_of b)) frames /\
    dev_log (client p) = List.concat (repeat transfer_failed failures) /\
    List.length (transfers (client p)) = (List.length frames + failures)%nat.
Proof.
  apply (reachable_ind (fun p =>
    exists (frames : list (list byte)) (failures : nat),
      input p = flat_map (fun b => report_ops (touchdata_of b)) frames /\
      dev_log (client p) = List.concat (repeat transfer_failed failures) /\
      List.length (transfers (client p)) = (List.length frames + failures)%nat)).
  - intros a. exists [], 0%nat. repeat split.
  - intros e q q' Hs (frames & failures & Hin & Hlog & Hlen).
    destruct e as [| |bus]; cbn [step] in Hs.
    + injection Hs as <-. rewrite irq_effect. exists frames, failures. now repeat split.
    + unfold worker_start in Hs. destruct (timers (dwork q)); [discriminate|].
      destruct (running (dwork q)); [discriminate|]. injection Hs as <-.
      exists frames, failures. now repeat split.
    + destruct (running (dwork q)); [|discriminate]. injection Hs as <-.
      destruct (work_effect bus q) as (Hc & Hi & _).
      unfold worker_done. cbn [set_dwork client input]. rewrite Hc, Hi.
      cbn [dev_log transfers]. rewrite length_app, Hlen, Hin, Hlog. cbn [List.length].
      destruct (xfer_ret bus =? 1).
      * exists (frames ++ [xfer_buf bus]), failures.
        rewrite flat_map_app, length_app. cbn [flat_map List.length].
        rewrite !app_nil_r. repeat split. lia.
      * exists frames, (S failures).
        rewrite concat_repeat_snoc, app_nil_r. repeat split. lia.
Qed.

(** X8.  The bus is never read without a request behind it: in every
    reachable instance the transfers made, the cycle in flight and the read
    still outstanding together number at most the scheduling requests made,
    and every request asked either for no delay or for the poll period of
    [msecs_to_jiffies 20]. *)
Theorem reads_follow_requests (p : struct_ili2117) :
  reachable p ->
  Z.of_nat (List.length (transfers (client p))) +
  (if running (dwork p) then 1 else 0) + outstanding p <=
  Z.of_nat (List.length (requests (dwork p))) /\
  Forall (fun d => d = 0 \/ d = msecs_to_jiffies 20) (requests (dwork p)).
Proof.
  intros Hr.
  enough (H : poll_period p = DEFAULT_POLL_PERIOD /\
              Z.of_nat (List.length (transfers (client p))) +
              (if running (dwork p) then 1 else 0) + outstanding p <=
              Z.of_nat (List.length (requests (dwork p))) /\
              Forall (fun d => d = 0 \/ d = msecs_to_jiffies 20) (requests (dwork p)))
    by (destruct H as (_ & H); exact H).
  revert p Hr. apply reachable_ind.
  - intros a. split; [reflexivity|]. split; [cbn; lia|constructor].
  - intros e q q' Hs (Hpp & Hle & Hreq). unfold outstanding in *.
    destruct e as [| |bus]; cbn [step] in Hs.
    + injection Hs as <-. rewrite irq_effect.
      cbn [set_dwork client dwork poll_period running timers requests].
      split; [exact Hpp|]. split.
      * rewrite length_app. cbn [List.length].
        destruct (pending (dwork q)); rewrite ?length_app; cbn [List.length]; lia.
      * apply Forall_app. split; [exact Hreq|]. constructor; [now left|constructor].
    + unfold worker_start in Hs. destruct (timers (dwork q)) as [|d rest]; [discriminate|].
      destruct (running (dwork q)); [discriminate|]. injection Hs as <-.
      cbn [set_dwork client dwork poll_period running timers requests].
      split; [exact Hpp|]. split; [cbn [List.length] in Hle; lia|exact Hreq].
    + destruct (running (dwork q)) eqn:Hrun; [|discriminate]. injection Hs as <-.
      destruct (work_effect bus q) as (Hc & _ & Hp & Hw).
      unfold worker_done.
      cbn [set_dwork client dwork poll_period running timers requests pending].
      rewrite Hc, Hp, Hw. cbn [transfers]. rewrite Hpp.
      change DEFAULT_POLL_PERIOD with 20.
      split; [reflexivity|].
      destruct (continues bus); cbn [pending timers requests].
      * split.
        -- rewrite !length_app. cbn [List.length].
           destruct (pending (dwork q)); rewrite ?length_app; cbn [List.length]; lia.
        -- apply Forall_app. split; [exact Hreq|]. constructor; [now right|constructor].
      * split; [|exact Hreq]. rewrite length_app. cbn [List.length]. lia.
Qed.

Lemma one_cycle (bus : i2c_result) (p : struct_ili2117) (d : Z) :
  pending (dwork p) = true ->
  timers (dwork p) = [d] ->
  running (dwork p) = false ->
  exists q,
    run [WorkerStart; WorkerFinish bus] p = Some q /\
    List.length (transfers (client q)) = S (List.length (transfers (client p))) /\
    running (dwork q) = false /\
    (if continues bus
     then pending (dwork q) = true /\
          timers (dwork q) = [msecs_to_jiffies (poll_period p)]
     else pending (dwork q) = false /\ timers (dwork q) = []).
Proof.
  intros Hp Ht Hr. destruct p as [c inp pp [pe ti ru rq]].
  cbn in Hp, Ht, Hr. subst.
  exists (worker_done (exec (ili2117_work bus)
                             (mk_ili2117 c inp pp (mk_dwork false [] true rq)))).
  split; [reflexivity|].
  destruct (work_effect bus (mk_ili2117 c inp pp (mk_dwork false [] true rq)))
    as (Hc & _ & _ & Hw).
  unfold worker_done. cbn [set_dwork client dwork running pending timers].
  rewrite Hc, Hw. cbn [transfers client dwork pending timers poll_period].
  split; [rewrite length_app; cbn; lia|]. split; [reflexivity|].
  destruct (continues bus); cbn; split; reflexivity.
Qed.

Lemma cycles_cons (bus : i2c_result) (rest : list i2c_result) :
  cycles (bus :: rest) = [WorkerStart; WorkerFinish bus] ++ cycles rest.
Proof. reflexivity. Qed.

(** X9.  Polling continues exactly while frames keep coming that carry
    packet id 0x5A.  From an instance with one read requested, a chain of
    cycles with no interrupt in between can run if and only if every cycle
    but the last had a successful transfer of such a frame; each cycle
    makes one transfer, and the chain leaves the scheduler idle exactly
    when its last cycle was not of that kind. *)
Theorem poll_chain (outcomes : list i2c_result) :
  forall (bus : i2c_result) (p : struct_ili2117) (d : Z),
  pending (dwork p) = true ->
  timers (dwork p) = [d] ->
  running (dwork p) = false ->
  (run (cycles (outcomes ++ [bus])) p <> None <->
   forallb continues outcomes = true) /\
  (forall q, run (cycles (outcomes ++ [bus])) p = Some q ->
     List.length (transfers (client q)) =
       (List.length (transfers (client p)) + List.length outcomes + 1)%nat /\
     (idle q <-> continues bus = false)).
Proof.
  induction outcomes as [|b rest IH]; intros bus p d Hp Ht Hr.
  - cbn [app forallb]. change (cycles [bus]) with [WorkerStart; WorkerFinish bus].
    destruct (one_cycle bus p d Hp Ht Hr) as (q & Hq & Hlen & Hrun & Hc).
    rewrite Hq. split; [split; [reflexivity|discriminate]|].
    intros q' [= <-]. split; [cbn [List.length]; lia|].
    unfold idle. destruct (continues bus); destruct Hc as [Hc1 Hc2].
    + split; [intros (H & _); congruence|discriminate].
    + split; [reflexivity|]. intros _. repeat split; assumption.
  - cbn [app forallb]. rewrite cycles_cons, run_app.
    destruct (one_cycle b p d Hp Ht Hr) as (q & Hq & Hlen & Hrun & Hc).
    rewrite Hq. destruct (continues b); destruct Hc as [Hc1 Hc2]; cbn [andb].
    + destruct (IH bus q _ Hc1 Hc2 Hrun) as [Hiff Hres].
      split; [exact Hiff|].
      intros q' Hq'. destruct (Hres q' Hq') as [Hl Hi].
      split; [cbn [List.length]; lia|exact Hi].
    + assert (Hnone : run (cycles (rest ++ [bus])) q = None).
      { destruct rest as [|b' rest']; cbn [app]; rewrite cycles_cons;
          cbn [app run step]; unfold worker_start; now rewrite Hc2. }
      rewrite Hnone. split; [split; [congruence|discriminate]|discriminate].
Qed.

(** ** Probe and remove *)

(** X10.  [ili2117_i2c_probe] returns 0 exactly when the client has an
    interrupt line, both allocations succeed, and [request_irq] and
    [input_register_device] both return 0.  It leaves an instance behind
    exactly then, with the poll period of 20 and nothing scheduled; and the
    interrupt is requested only once both allocations have succeeded. *)
Theorem probe_succeeds_iff (a : Z) (env : probe_env) :
  (probe_ret (ili2117_i2c_probe a env) = 0 <->
   0 < client_irq env /\
   kzalloc_ok env = true /\ input_allocate_ok env = true /\
   request_irq_ret env = 0 /\ input_register_ret env = 0) /\
  probe_priv (ili2117_i2c_probe a env) =
    (if probe_ret (ili2117_i2c_probe a env) =? 0 then Some (probed a) else None) /\
  existsb is_request_irq (probe_calls (ili2117_i2c_probe a env)) =
    (0 <? client_irq env) && kzalloc_ok env && input_allocate_ok env.
Proof.
  destruct env as [irq kz ia rq rr]. unfold ili2117_i2c_probe.
  cbn [client_irq kzalloc_ok input_allocate_ok request_irq_ret input_register_ret].
  destruct (Z.leb_spec irq 0) as [Hirq|Hirq];
    [|destruct kz, ia; cbn [negb orb];
      [destruct (Z.eqb_spec rq 0) as [Hrq|Hrq]; cbn [negb];
       [destruct (Z.eqb_spec rr 0) as [Hrr|Hrr]; cbn [negb]| ]| | | ]];
    cbn [probe_ret probe_priv probe_calls];
    repeat match goal with
           | H : ?x <> 0 |- context [?x =? 0] => rewrite (proj2 (Z.eqb_neq x 0) H)
           end;
    (split; [split; [intros H; try discriminate H; try contradiction;
                     repeat split; (lia || reflexivity || assumption)
                    |intros (h1 & h2 & h3 & h4 & h5);
                     try discriminate; try contradiction; try lia; reflexivity]
            |split; [reflexivity|]]);
    cbn; (destruct (Z.ltb_spec 0 irq); [reflexivity|lia]) ||
         (destruct (Z.ltb_spec 0 irq); [lia|reflexivity]).
Qed.

Lemma release_held_irq (irq : Z) (held : list resource) :
  release (R_irq irq) (R_irq irq :: held) = Some held.
Proof. cbn. now rewrite Z.eqb_refl. Qed.

(** X11.  A probe that fails gives back everything it had taken and frees
    nothing it does not hold: after the calls of a failed probe nothing is
    held.  A probe that succeeds holds exactly its private memory, the
    input device, the interrupt line and the registration. *)
Theorem probe_releases_on_failure (a : Z) (env : probe_env) :
  ledger (probe_calls (ili2117_i2c_probe a env)) [] =
  Some (if probe_ret (ili2117_i2c_probe a env) =? 0
        then [R_priv; R_input; R_irq (client_irq env); R_registered]
        else []).
Proof.
  destruct env as [irq kz ia rq rr]. unfold ili2117_i2c_probe.
  cbn [client_irq kzalloc_ok input_allocate_ok request_irq_ret input_register_ret].
  destruct (Z.leb_spec irq 0) as [Hirq|Hirq];
    [|destruct kz, ia; cbn [negb orb];
      [destruct (Z.eqb_spec rq 0) as [Hrq|Hrq]; cbn [negb];
       [destruct (Z.eqb_spec rr 0) as [Hrr|Hrr]; cbn [negb]| ]| | | ]];
    cbn [probe_ret probe_priv probe_calls];
    repeat match goal with
           | H : ?x <> 0 |- context [?x =? 0] => rewrite (proj2 (Z.eqb_neq x 0) H)
           end;
    subst; cbn;
    repeat match goal with
           | H : ?x <> 0 |- context [?x =? 0] => rewrite (proj2 (Z.eqb_neq x 0) H)
           end;
    cbn; rewrite ?Z.eqb_refl; reflexivity.
Qed.

(** X12.  [ili2117_i2c_remove] returns 0 and, after a successful probe,
    gives back all the probe had taken, in this order: its first call
    releases the interrupt line and nothing else, the delayed work is
    cancelled among its first two calls while the private memory, the input
    device and the registration are all still held, its third call leaves
    only the private memory held, and its last call frees that.  After a
    probe that failed its calls would release what is not held. *)
Theorem remove_undoes_probe (a : Z) (env : probe_env) :
  fst (ili2117_i2c_remove (client_irq env)) = 0 /\
  ledger (probe_calls (ili2117_i2c_probe a env) ++
          snd (ili2117_i2c_remove (client_irq env))) [] =
    (if probe_ret (ili2117_i2c_probe a env) =? 0 then Some [] else None) /\
  ledger (probe_calls (ili2117_i2c_probe a env) ++
          firstn 1 (snd (ili2117_i2c_remove (client_irq env)))) [] =
    (if probe_ret (ili2117_i2c_probe a env) =? 0
     then Some [R_priv; R_input; R_registered] else None) /\
  existsb is_cancel (firstn 2 (snd (ili2117_i2c_remove (client_irq env)))) = true /\
  ledger (probe_calls (ili2117_i2c_probe a env) ++
          firstn 2 (snd (ili2117_i2c_remove (client_irq env)))) [] =
    (if probe_ret (ili2117_i2c_probe a env) =? 0
     then Some [R_priv; R_input; R_registered] else None) /\
  ledger (probe_calls (ili2117_i2c_probe a env) ++
          firstn 3 (snd (ili2117_i2c_remove (client_irq env)))) [] =
    (if probe_ret (ili2117_i2c_probe a env) =? 0 then Some [R_priv] else None) /\
  List.length (snd (ili2117_i2c_remove (client_irq env))) = 4%nat.
Proof.
  split; [reflexivity|].
  destruct env as [irq kz ia rq rr]. unfold ili2117_i2c_probe, ili2117_i2c_remove.
  cbn [client_irq kzalloc_ok input_allocate_ok request_irq_ret input_register_ret
       snd firstn].
  destruct (Z.leb_spec irq 0) as [Hirq|Hirq];
    [|destruct kz, ia; cbn [negb orb];
      [destruct (Z.eqb_spec rq 0) as [Hrq|Hrq]; cbn [negb];
       [destruct (Z.eqb_spec rr 0) as [Hrr|Hrr]; cbn [negb]| ]| | | ]];
    cbn [probe_ret probe_priv probe_calls];
    repeat match goal with
           | H : ?x <> 0 |- context [?x =? 0] => rewrite (proj2 (Z.eqb_neq x 0) H)
           end;
    subst; cbn;
    repeat match goal with
           | H : ?x <> 0 |- context [?x =? 0] => rewrite (proj2 (Z.eqb_neq x 0) H)
           end;
    cbn; rewrite ?Z.eqb_refl; cbn; repeat split; reflexivity.
Qed.

Lemma positions_app (l r : list input_op) :
  positions (l ++ r) = positions l ++ positions r.
Proof.
  induction l as [|op l IH]; cbn [app positions]; [reflexivity|].
  destruct op; cbn [app]; now rewrite IH.
Qed.

Lemma positions_range_ops (P : abs_code * Z -> Prop) (td : struct_touchdata) (n : nat) :
  forall j,
    (forall i, j <= i < j + Z.of_nat n ->
       P (ABS_MT_POSITION_X, finger_x (finger_ref td i)) /\
       P (ABS_MT_POSITION_Y, finger_y (finger_ref td i))) ->
    Forall P (positions (range_ops td n j)).
Proof.
  induction n as [|n IH]; intros j H; cbn [range_ops]; [constructor|].
  rewrite positions_app. apply Forall_app. split.
  - unfold slot_ops, slot_body. destruct (touch_of td j); cbn [positions].
    + destruct (H j ltac:(lia)) as [Hx Hy]. now repeat constructor.
    + constructor.
  - apply IH. intros i Hi. apply H. lia.
Qed.

Lemma coordinates_12bit (buf : list byte) (i : Z) :
  0 <= i < MAX_TOUCHES ->
  0 <= finger_x (finger_ref (touchdata_of buf) i) <= 4095 /\
  0 <= finger_y (finger_ref (touchdata_of buf) i) <= 4095.
Proof.
  intros Hi. rewrite finger_ref_at by exact Hi.
  destruct (finger_at_ranges buf (1 + i * 4)) as (Hyh & Hxh & Hxl & Hyl & _).
  unfold finger_x, finger_y. rewrite !lor_shiftl_8 by lia. lia.
Qed.

(** X13.  What a successful probe declares to the input core covers what
    the reports use: ten slots are declared and every slot a report selects
    is one of them, and both position axes are declared with minimum 0 and
    every reported position is at least 0.  The declared maximum of 2047 is
    not a bound on the reports, which stay below 4096. *)
Theorem reports_use_declared (a : Z) (env : probe_env)
        (buf : list byte) (p : struct_ili2117) :
  probe_ret (ili2117_i2c_probe a env) = 0 ->
  declared_slots (probe_calls (ili2117_i2c_probe a env)) = 10 /\
  Forall (fun s => 0 <= s < declared_slots (probe_calls (ili2117_i2c_probe a env)))
         (slots_selected (emitted (ili2117_report_events (touchdata_of buf)) p)) /\
  Forall (fun cv =>
            declared_range (fst cv) (probe_calls (ili2117_i2c_probe a env)) =
              Some (0, 2047) /\
            0 <= snd cv <= 4095)
         (positions (emitted (ili2117_report_events (touchdata_of buf)) p)).
Proof.
  intros Hok.
  assert (Hcalls : declared_slots (probe_calls (ili2117_i2c_probe a env)) = 10 /\
                   forall c, declared_range c (probe_calls (ili2117_i2c_probe a env)) =
                             Some (0, 2047)).
  { revert Hok. destruct env as [irq kz ia rq rr]. unfold ili2117_i2c_probe.
    cbn [client_irq kzalloc_ok input_allocate_ok request_irq_ret input_register_ret].
    destruct (irq <=? 0); [discriminate|].
    destruct kz, ia; cbn [negb orb]; try discriminate.
    destruct (Z.eqb_spec rq 0) as [Hrq|Hrq]; cbn [negb]; [|intros H; contradiction].
    destruct (Z.eqb_spec rr 0) as [Hrr|Hrr]; cbn [negb]; [|intros H; contradiction].
    intros _. split; [reflexivity|]. intros c. destruct c; reflexivity. }
  destruct Hcalls as [Hslots Hrange].
  rewrite emitted_report_events, slots_selected_report_ops, Hslots.
  split; [reflexivity|]. split.
  - apply Forall_forall. intros s Hs. apply (Zseq_In 10 0 s) in Hs. lia.
  - unfold report_ops. rewrite positions_app. cbn [positions]. rewrite app_nil_r.
    apply positions_range_ops. intros i Hi.
    destruct (coordinates_12bit buf i) as [Hx Hy];
      [unfold MAX_TOUCHES; cbn in Hi; lia|].
    cbn [fst snd]. rewrite !Hrange. repeat split; lia.
Qed.

(** ** Interrupts during a cycle *)

(** X14.  No interrupt is lost.  After an interrupt a read is outstanding;
    if no cycle is in flight the worker can start it, and if one is in
    flight the read is still outstanding when that cycle ends, whatever its
    transfer brought, and the worker can start it then. *)
Theorem interrupt_not_lost (p : struct_ili2117) :
  reachable p ->
  outstanding (exec ili2117_irq p) = 1 /\
  (running (dwork p) = false -> step WorkerStart (exec ili2117_irq p) <> None) /\
  (forall bus q, step (WorkerFinish bus) (exec ili2117_irq p) = Some q ->
     outstanding q = 1 /\ step WorkerStart q <> None).
Proof.
  intros Hreach.
  destruct (reachable_well_scheduled p Hreach) as [_ Hsch].
  rewrite irq_effect. unfold outstanding.
  destruct p as [c inp pp [pe ti ru rq]]. cbn in Hsch.
  cbn [set_dwork dwork client input poll_period pending timers running requests step].
  assert (Ht : exists d, (if pe then ti else ti ++ [0]) = [d]).
  { destruct Hsch as [[-> ->]|[-> [d ->]]]; eexists; reflexivity. }
  destruct Ht as [d Ht]. rewrite Ht.
  split; [reflexivity|]. split.
  - intros ->. unfold worker_start. cbn. discriminate.
  - intros bus q Hq. destruct ru; [|discriminate]. injection Hq as <-.
    destruct (work_effect bus
                (mk_ili2117 c inp pp (mk_dwork true [d] true (rq ++ [0]))))
      as (_ & _ & _ & Hw).
    unfold worker_done, worker_start, set_dwork.
    cbn [dwork client input poll_period pending timers running requests].
    rewrite Hw. cbn [dwork pending timers]. destruct (continues bus); cbn.
    + split; [reflexivity|discriminate].
    + split; [reflexivity|discriminate].
Qed.

(** ** Teardown *)

Lemma teardown_stage_installed (irq : Z) (p : struct_ili2117) :
  teardown_stage (installed irq p).
Proof. cbn. repeat split. Qed.

Lemma idle_no_step (e : event) (p : struct_ili2117) :
  idle p -> e <> Interrupt -> step e p = None.
Proof.
  intros (Hp & Ht & Hr) He. destruct e as [| |bus]; [contradiction| |]; cbn [step].
  - unfold worker_start. now rewrite Ht.
  - now rewrite Hr.
Qed.

(** Every step keeps the stage of the removal, and keeps the device free
    of faults. *)
Lemma teardown_step (te : tevent) (d d' : device) :
  tstep te d = Some d' ->
  fault d = false /\ teardown_stage d ->
  fault d' = false /\ teardown_stage d'.
Proof.
  intros Hs [Hf Hst].
  destruct d as [p ln irq reg alloc rem flt]. cbn in Hf. subst flt.
  unfold teardown_stage in Hst. cbn [removing irq_installed input_registered
    priv_allocated line priv] in Hst.
  destruct te as [e| |].
  - (* the interrupt source or the worker *)
    cbn [tstep] in Hs. unfold driver_step in Hs.
    cbn [priv line irq_installed input_registered priv_allocated removing fault] in Hs.
    destruct rem as [l|].
    + destruct Hst as [(-> & -> & -> & ->)|[(-> & -> & -> & ->)|
        [(-> & -> & -> & -> & Hi)|[(-> & -> & -> & -> & Hi)|(-> & -> & -> & -> & Hi)]]]].
      * destruct (step e p) as [p'|]; [|destruct e; discriminate].
        assert (d' = mk_device p' ln true true true
                  (Some [free_irq ln; cancel_delayed_work_sync;
                         input_unregister_device; kfree true]) false)
          by (destruct e; cbn in Hs; congruence).
        subst d'. split; [reflexivity|]. left. repeat split.
      * destruct e as [| |bus]; [discriminate| |];
          (destruct (step _ p) as [p'|]; [|discriminate]);
          cbn in Hs; injection Hs as <-;
          (split; [reflexivity|]); right; left; repeat split.
      * destruct e as [| |bus]; [discriminate| |];
          rewrite (idle_no_step _ p Hi) in Hs by discriminate; discriminate.
      * destruct e as [| |bus]; [discriminate| |];
          rewrite (idle_no_step _ p Hi) in Hs by discriminate; discriminate.
      * destruct e as [| |bus]; [discriminate| |];
          rewrite (idle_no_step _ p Hi) in Hs by discriminate; discriminate.
    + destruct Hst as (-> & -> & ->).
      destruct (step e p) as [p'|]; [|destruct e; discriminate].
      assert (d' = mk_device p' ln true true true None false)
        by (destruct e; cbn in Hs; congruence).
      subst d'. split; [reflexivity|]. cbn. repeat split.
  - (* remove is entered *)
    cbn [tstep removing] in Hs. destruct rem as [l|]; [discriminate|].
    destruct Hst as (-> & -> & ->). injection Hs as <-.
    split; [reflexivity|]. left. repeat split.
  - (* remove makes its next call *)
    cbn [tstep removing] in Hs. destruct rem as [l|]; [|discriminate].
    destruct Hst as [(-> & -> & -> & ->)|[(-> & -> & -> & ->)|
      [(-> & -> & -> & -> & Hi)|[(-> & -> & -> & -> & Hi)|(-> & -> & -> & -> & Hi)]]]].
    + cbn in Hs. rewrite Z.eqb_refl in Hs. injection Hs as <-.
      split; [reflexivity|]. right; left. repeat split.
    + cbn in Hs. destruct (running (dwork p)); [discriminate|]. injection Hs as <-.
      split; [reflexivity|]. right; right; left. repeat split.
    + cbn in Hs. injection Hs as <-.
      split; [reflexivity|]. right; right; right; left. repeat split; apply Hi.
    + cbn in Hs. injection Hs as <-.
      split; [reflexivity|]. right; right; right; right. repeat split; apply Hi.
    + discriminate.
Qed.

Lemma teardown_run (tes : list tevent) :
  forall d d', trun tes d = Some d' ->
    fault d = false /\ teardown_stage d ->
    fault d' = false /\ teardown_stage d'.
Proof.
  induction tes as [|te tes IH]; intros d d'; cbn [trun].
  - now intros [= <-].
  - destruct (tstep te d) as [d1|] eqn:H1; [|discriminate].
    intros Hr Hd. eapply IH; [exact Hr|]. eapply teardown_step; eauto.
Qed.

Lemma joined_stage (d : device) :
  teardown_stage d -> joined d = true ->
  irq_installed d = false /\ idle (priv d) /\
  (removing d = Some [input_unregister_device; kfree true] \/
   removing d = Some [kfree true] \/ removing d = Some []).
Proof.
  unfold teardown_stage, joined. destruct (removing d) as [l|]; [|discriminate].
  intros [(-> & _)|[(-> & _)|[(-> & Hq & _ & _ & Hi)|[(-> & Hq & _ & _ & Hi)|
    (-> & Hq & _ & _ & Hi)]]]] Hj; try discriminate; auto.
Qed.

Lemma joined_step (te : tevent) (d d' : device) :
  teardown_stage d -> joined d = true -> tstep te d = Some d' ->
  joined d' = true /\ priv d' = priv d.
Proof.
  intros Hst Hj Hs. destruct (joined_stage d Hst Hj) as (Hq & Hi & Hl).
  destruct d as [p ln irq reg alloc rem flt]. cbn in Hq, Hi, Hl. subst irq.
  destruct te as [e| |].
  - cbn [tstep] in Hs. unfold driver_step in Hs. cbn [irq_installed priv] in Hs.
    destruct e as [| |bus]; [discriminate| |];
      rewrite (idle_no_step _ p Hi) in Hs by discriminate; discriminate.
  - cbn [tstep removing] in Hs. destruct Hl as [->|[->| ->]]; discriminate.
  - cbn [tstep removing] in Hs.
    destruct Hl as [->|[->| ->]]; cbn in Hs; [| |discriminate];
      injection Hs as <-; split; reflexivity.
Qed.

Lemma joined_run (tes : list tevent) :
  forall d d', fault d = false /\ teardown_stage d -> joined d = true ->
    trun tes d = Some d' -> joined d' = true /\ priv d' = priv d.
Proof.
  induction tes as [|te tes IH]; intros d d' Hd Hj; cbn [trun].
  - intros [= <-]. split; [exact Hj|reflexivity].
  - destruct (tstep te d) as [d1|] eqn:H1; [|discriminate]. intros Hr.
    destruct (joined_step te d d1 (proj2 Hd) Hj H1) as [Hj1 Hp1].
    destruct (IH d1 d' (teardown_step te d d1 H1 Hd) Hj1 Hr) as [Hj' Hp'].
    split; [exact Hj'|congruence].
Qed.

(** C9 (amended).  Over every run of the interrupt source, the worker and
    one removal, starting after a successful probe:
    - neither the handler nor the work function ever runs on a freed
      instance or an unregistered input device;
    - once [free_irq] has returned no interrupt is delivered;
    - while remove is at [cancel_delayed_work_sync] nothing has been
      released yet; with a cycle in flight the call cannot return, it can as
      soon as that cycle has finished, and when it returns nothing is
      scheduled or in flight;
    - the input device is unregistered and the instance freed only after
      that;
    - from then on no step of the interrupt source or the worker is
      possible and the instance, so its input calls and transfers, never
      changes again. *)
Theorem teardown_joins_cycle (irq : Z) (p : struct_ili2117)
        (tes : list tevent) (d : device) :
  trun tes (installed irq p) = Some d ->
  fault d = false /\
  (disarmed d = true ->
   irq_installed d = false /\ tstep (Driver Interrupt) d = None) /\
  (disarmed d = true -> joined d = false ->
   input_registered d = true /\ priv_allocated d = true /\
   (running (dwork (priv d)) = true ->
    tstep RemoveNext d = None /\
    forall bus d', tstep (Driver (WorkerFinish bus)) d = Some d' ->
                   tstep RemoveNext d' <> None) /\
   (running (dwork (priv d)) = false ->
    exists d', tstep RemoveNext d = Some d' /\ joined d' = true /\
               idle (priv d') /\ input (priv d') = input (priv d))) /\
  (input_registered d = false \/ priv_allocated d = false -> joined d = true) /\
  (joined d = true ->
   idle (priv d) /\
   (forall e, tstep (Driver e) d = None) /\
   forall tes' d', trun tes' d = Some d' ->
     joined d' = true /\ priv d' = priv d /\ fault d' = false).
Proof.
  intros Hrun.
  assert (Hd : fault d = false /\ teardown_stage d).
  { eapply teardown_run; [exact Hrun|]. split; [reflexivity|].
    apply teardown_stage_installed. }
  destruct Hd as [Hf Hst]. split; [exact Hf|].
  split; [|split; [|split; [|]]].
  - (* disarmed *)
    unfold disarmed, teardown_stage in *. destruct d as [q ln i r a rem flt].
    cbn in *. destruct rem as [l|]; [|discriminate].
    intros Hdis. unfold driver_step. cbn.
    destruct Hst as [(-> & _)|[(-> & -> & _)|[(-> & -> & _)|[(-> & -> & _)|
      (-> & -> & _)]]]]; [discriminate| | | |]; split; reflexivity.
  - (* at the join *)
    unfold disarmed, joined, teardown_stage in *. destruct d as [q ln i r a rem flt].
    cbn [removing irq_installed input_registered priv_allocated line priv fault] in *.
    destruct rem as [l|]; [|discriminate].
    intros Hdis Hnj.
    destruct Hst as [(-> & _)|[(-> & -> & -> & ->)|[(-> & _)|[(-> & _)|(-> & _)]]]];
      try discriminate.
    split; [reflexivity|]. split; [reflexivity|]. split.
    + intros Hr. cbn. rewrite Hr. split; [reflexivity|].
      intros bus d' Hs. unfold driver_step in Hs. cbn in Hs.
      injection Hs as <-. cbn. discriminate.
    + intros Hr. cbn. rewrite Hr. eexists. split; [reflexivity|].
      cbn. repeat split.
  - (* release only after the join *)
    unfold joined, teardown_stage in *. destruct d as [q ln i r a rem flt].
    cbn in *. destruct rem as [l|].
    + destruct Hst as [(-> & _ & -> & ->)|[(-> & _ & -> & ->)|[(-> & _)|[(-> & _)|
        (-> & _)]]]]; intros [H|H]; try discriminate; reflexivity.
    + destruct Hst as (_ & -> & ->). intros [H|H]; discriminate.
  - (* after the join *)
    intros Hj. destruct (joined_stage d Hst Hj) as (Hq & Hi & Hl).
    split; [exact Hi|]. split.
    + intros e. cbn [tstep]. unfold driver_step. rewrite Hq.
      destruct e as [| |bus]; [reflexivity| |];
        now rewrite (idle_no_step _ (priv d) Hi) by discriminate.
    + intros tes' d' Hr'.
      destruct (joined_run tes' d d' (conj Hf Hst) Hj Hr') as [Hj' Hp'].
      split; [exact Hj'|]. split; [exact Hp'|].
      eapply teardown_run; [exact Hr'|]. split; assumption.
Qed.

End Driver.

(** * The properties at concrete frames *)

Lemma first_slot : 0 <= 0 < MAX_TOUCHES.
Proof. unfold MAX_TOUCHES. lia. Defined.

(** The frame of one touch at (100, 200): slot 0 touching, the others
    released, and the next poll requested. *)
Example report_one_touch :
  slot_events (emitted (ili2117_report_events (touchdata_of frame_one_touch)) (probed 0x41)) =
  mk_event 0 (Touching 100 200) ::
  map (fun i => mk_event i Released) [1; 2; 3; 4; 5; 6; 7; 8; 9].
Proof. vm_compute. reflexivity. Qed.

(** The same frame with the sentinel frame checksum: all slots released. *)
Example report_sentinel :
  slot_events (emitted (ili2117_report_events (touchdata_of frame_sentinel)) (probed 0x41)) =
  map (fun i => mk_event i Released) [0; 1; 2; 3; 4; 5; 6; 7; 8; 9].
Proof. vm_compute. reflexivity. Qed.

(** A frame with another packet id: all slots released, nothing scheduled. *)
Example cycle_other_packet :
  step jiffies_at_100hz (WorkerFinish (mk_result 1 frame_other)) (in_flight 0x41) =
  Some {| client := mk_client 0x41 [mk_msg 0x41 I2C_M_RD 43] [];
          input := report_ops (touchdata_of frame_other);
          poll_period := 20;
          dwork := mk_dwork false [] false [0] |}.
Proof. vm_compute. reflexivity. Qed.

Lemma slot_touching_iff_witness :
  0 <= 0 < MAX_TOUCHES /\
  exists c : contact,
    nth_error (slot_events (emitted (ili2117_report_events (touchdata_of frame_one_touch))
                                    (probed 0x41)))
              (Z.to_nat 0) = Some (mk_event 0 c) /\
    hd_error (addressed 0 (emitted (ili2117_report_events (touchdata_of frame_one_touch))
                                   (probed 0x41))) =
      Some (input_mt_report_slot_state MT_TOOL_FINGER (is_touching c)) /\
    (is_touching c = true <->
       packet_id (touchdata_of frame_one_touch) = 0x5a /\
       checksum (touchdata_of frame_one_touch) <> 0xff /\
       c_sum (finger_ref (touchdata_of frame_one_touch) 0) <> 0xff) /\
    (packet_id (touchdata_of frame_one_touch) <> 0x5a \/
     checksum (touchdata_of frame_one_touch) = 0xff -> c = Released).
Proof.
  split; [exact first_slot|].
  exact (slot_touching_iff frame_one_touch (probed 0x41) 0 first_slot).
Defined.

Lemma poll_continues_witness :
  exists p',
    step jiffies_at_100hz (WorkerFinish (mk_result 1 frame_one_touch)) (in_flight 0x41) =
      Some p' /\
    requests (dwork p') = [0; 2] /\
    timers (dwork p') = [2].
Proof.
  eexists. split; [reflexivity|].
  pose proof (poll_continues_iff_packet_id jiffies_at_100hz (in_flight 0x41) _
                (mk_result 1 frame_one_touch)
                (ex_intro _ 0x41 (ex_intro _ [Interrupt; WorkerStart] eq_refl))
                eq_refl eq_refl) as H.
  exact (conj (proj1 H) (proj1 (proj2 H))).
Defined.


Lemma at_most_one_read_witness :
  outstanding (probed 0x41) <= 1 /\
  run jiffies_at_100hz [Interrupt; Interrupt; WorkerStart; WorkerStart] (probed 0x41) = None.
Proof.
  assert (Hr : reachable jiffies_at_100hz (probed 0x41))
    by (exists 0x41, []; reflexivity).
  assert (Hi : idle (probed 0x41)) by (repeat split).
  pose proof (at_most_one_read_outstanding jiffies_at_100hz (probed 0x41)
                (mk_result 1 frame_other) Hr) as H.
  split; [exact (proj1 H)|].
  exact (proj1 (proj2 (proj2 (proj2 (proj2 H)) Hi))).
Defined.

Lemma coordinates_unclamped_witness :
  0 <= 0 < MAX_TOUCHES /\
  Z.lor (x_lo (finger_ref (touchdata_of frame_wide) 0))
        (Z.shiftl (x_hi (finger_ref (touchdata_of frame_wide) 0)) 8) =
  x_lo (finger_ref (touchdata_of frame_wide) 0) +
  256 * x_hi (finger_ref (touchdata_of frame_wide) 0).
Proof.
  split; [exact first_slot|].
  exact (proj1 (proj2 (proj2
           (coordinates_unclamped frame_wide (probed 0x41) 0 first_slot)))).
Defined.

Lemma slot_cases (i : Z) :
  0 <= i < MAX_TOUCHES ->
  i = 0 \/ i = 1 \/ i = 2 \/ i = 3 \/ i = 4 \/ i = 5 \/ i = 6 \/ i = 7 \/ i = 8 \/ i = 9.
Proof. unfold MAX_TOUCHES. lia. Defined.

Lemma released_bytes_witness :
  exec (ili2117_work jiffies_at_100hz (mk_result 1 frame_one_touch)) (in_flight 0x41) =
  exec (ili2117_work jiffies_at_100hz (mk_result 1 frame_one_touch_noisy)) (in_flight 0x41).
Proof.
  refine (proj1 (released_bytes_do_not_matter jiffies_at_100hz
                   frame_one_touch frame_one_touch_noisy (in_flight 0x41)
                   eq_refl eq_refl _ _)).
  - intros i Hi.
    destruct (slot_cases i Hi) as [->|[->|[->|[->|[->|[->|[->|[->|[->| ->]]]]]]]]];
      reflexivity.
  - intros i Hi.
    destruct (slot_cases i Hi) as [->|[->|[->|[->|[->|[->|[->|[->|[->| ->]]]]]]]]];
      intros Hne; try (exfalso; apply Hne; reflexivity);
      repeat split.
Defined.

(** * Where the code departs from the specification *)

(** A frame whose first finger has the high x nibble 8 is reported at
    x = 2048, above [X_MAX]: the high nibble ranges over 0..15 and nothing
    clamps the value. *)
Lemma coordinate_above_2047 :
  x_hi (finger_ref (touchdata_of frame_wide) 0) = 8 /\
  x_lo (finger_ref (touchdata_of frame_wide) 0) = 0 /\
  addressed 0 (emitted (ili2117_report_events (touchdata_of frame_wide)) (probed 0x41)) =
    [input_mt_report_slot_state MT_TOOL_FINGER true;
     input_report_abs ABS_MT_POSITION_X 2048;
     input_report_abs ABS_MT_POSITION_Y 0] /\
  ~ (forall f : struct_finger,
       0 <= x_hi f <= 15 -> 0 <= x_lo f <= 255 ->
       0 <= Z.lor (x_lo f) (Z.shiftl (x_hi f) 8) <= 2047).
Proof.
  split; [reflexivity|]. split; [reflexivity|]. split; [vm_compute; reflexivity|].
  intros H. specialize (H (mk_finger 0 8 0 0 1)). cbn in H. lia.
Qed.


(** After a cycle that an interrupt arrived in, the scheduler is not idle
    although the frame carries another packet id: the interrupt's read is
    still scheduled. *)
Lemma not_idle_after_interrupted_cycle :
  xfer_ret (mk_result 1 frame_other) = 1 /\
  packet_id (touchdata_of (xfer_buf (mk_result 1 frame_other))) <> 0x5a /\
  exists p p',
    run jiffies_at_100hz [Interrupt; WorkerStart; Interrupt] (probed 0x41) = Some p /\
    step jiffies_at_100hz (WorkerFinish (mk_result 1 frame_other)) p = Some p' /\
    pending (dwork p') = true /\
    timers (dwork p') = [0] /\
    ~ idle p'.
Proof.
  split; [reflexivity|]. split; [discriminate|].
  eexists. eexists. split; [reflexivity|]. split; [reflexivity|].
  split; [reflexivity|]. split; [reflexivity|].
  intros (H & _). discriminate H.
Qed.

(** After [free_irq] has returned, a cycle still in flight asks for its next
    poll read and the worker starts it; and a read that was only scheduled
    when remove is entered is cancelled, never performed. *)
Lemma read_requested_after_disarm :
  (exists d,
     trun jiffies_at_100hz
          [Driver Interrupt; Driver WorkerStart; RemoveCalled; RemoveNext;
           Driver (WorkerFinish (mk_result 1 frame_one_touch)); Driver WorkerStart]
          (installed 5 (probed 0x41)) = Some d /\
     disarmed d = true /\
     requests (dwork (priv d)) = [0; 2] /\
     running (dwork (priv d)) = true) /\
  (exists d,
     trun jiffies_at_100hz
          [Driver Interrupt; RemoveCalled; RemoveNext; RemoveNext]
          (installed 5 (probed 0x41)) = Some d /\
     joined d = true /\
     requests (dwork (priv d)) = [0] /\
     transfers (client (priv d)) = []).
Proof.
  split;
    lazymatch goal with
    | |- exists d, ?t = Some d /\ _ =>
        let v := eval vm_compute in t in
        lazymatch v with
        | Some ?d0 => exists d0; split; [vm_compute; reflexivity|]
        end
    end;
    repeat split.
Qed.

Lemma teardown_joins_witness :
  exists d,
    trun jiffies_at_100hz
         [Driver Interrupt; Driver WorkerStart; RemoveCalled; RemoveNext]
         (installed 5 (probed 0x41)) = Some d /\
    fault d = false /\
    tstep jiffies_at_100hz RemoveNext d = None.
Proof.
  lazymatch goal with
  | |- exists d, ?t = Some d /\ _ =>
      let v := eval vm_compute in t in
      lazymatch v with
      | Some ?d0 => exists d0; split; [vm_compute; reflexivity|]
      end
  end.
  match goal with
  | |- fault ?d0 = false /\ _ =>
      pose proof (teardown_joins_cycle jiffies_at_100hz 5 (probed 0x41)
                    [Driver Interrupt; Driver WorkerStart; RemoveCalled; RemoveNext]
                    d0 eq_refl) as H
  end.
  split; [exact (proj1 H)|].
  exact (proj1 (proj1 (proj2 (proj2 (proj1 (proj2 (proj2 H)) eq_refl eq_refl))) eq_refl)).
Defined.

(** * The further properties at concrete instances *)

Lemma after_failure_reachable : reachable jiffies_at_100hz (after_failure 0x41).
Proof.
  exists 0x41, [Interrupt; WorkerStart; WorkerFinish (mk_result (-110) [])].
  reflexivity.
Defined.

Lemma in_flight_is_reachable : reachable jiffies_at_100hz (in_flight 0x41).
Proof. exists 0x41, [Interrupt; WorkerStart]. reflexivity. Defined.

Lemma frame_wire_format_witness :
  0 <= 0 < MAX_TOUCHES /\
  c_sum (finger_ref (touchdata_of frame_one_touch) 0) =
  byte_at frame_one_touch (4 * 0 + 4).
Proof.
  split; [exact first_slot|].
  exact (proj1 (proj2 (proj2 (proj2 (proj2
           (frame_wire_format frame_one_touch 0 first_slot)))))).
Defined.

Lemma decode_loses_nothing_witness :
  frame_one_touch =
  frame_bytes ([0x5a; 0x00; 0x64; 0xc8; 0x01] ++ released_fingers 9 ++ [0x00; 0x01]).
Proof.
  exact (decode_loses_nothing frame_one_touch
           (frame_bytes ([0x5a; 0x00; 0x64; 0xc8; 0x01] ++ released_fingers 9 ++
                         [0x00; 0x01]))
           eq_refl eq_refl eq_refl).
Defined.

Lemma transfer_failures_alike_witness :
  exec (ili2117_work jiffies_at_100hz (mk_result (-110) [])) (in_flight 0x41) =
  exec (ili2117_work jiffies_at_100hz (mk_result 0 frame_one_touch)) (in_flight 0x41).
Proof.
  assert (H1 : xfer_ret (mk_result (-110) []) <> 1) by (cbn; lia).
  assert (H2 : xfer_ret (mk_result 0 frame_one_touch) <> 1) by (cbn; lia).
  exact (proj2 (proj2 (transfer_failures_alike jiffies_at_100hz
                         (mk_result (-110) []) (mk_result 0 frame_one_touch)
                         sizeof_touchdata (in_flight 0x41) H1 H2))).
Defined.

Lemma bus_is_only_read_witness :
  Forall (fun m => m = mk_msg (addr (client (after_failure 0x41))) I2C_M_RD sizeof_touchdata)
         (transfers (client (after_failure 0x41))).
Proof.
  exact (bus_is_only_read jiffies_at_100hz (after_failure 0x41) after_failure_reachable).
Defined.

Lemma cycles_are_whole_witness :
  exists (frames : list (list byte)) (failures : nat),
    input (after_failure 0x41) =
      flat_map (fun b => report_ops (touchdata_of b)) frames /\
    dev_log (client (after_failure 0x41)) =
      List.concat (repeat transfer_failed failures) /\
    List.length (transfers (client (after_failure 0x41))) =
      (List.length frames + failures)%nat.
Proof.
  exact (cycles_are_whole jiffies_at_100hz (after_failure 0x41) after_failure_reachable).
Defined.

Lemma reads_follow_requests_witness :
  Z.of_nat (List.length (transfers (client (after_failure 0x41)))) +
  (if running (dwork (after_failure 0x41)) then 1 else 0) +
  outstanding (after_failure 0x41) <=
  Z.of_nat (List.length (requests (dwork (after_failure 0x41)))).
Proof.
  exact (proj1 (reads_follow_requests jiffies_at_100hz (after_failure 0x41)
                  after_failure_reachable)).
Defined.

Lemma poll_chain_witness :
  run jiffies_at_100hz
      (cycles ([mk_result 1 frame_one_touch] ++ [mk_result 1 frame_other]))
      (armed 0x41) <> None.
Proof.
  exact (proj2 (proj1 (poll_chain jiffies_at_100hz [mk_result 1 frame_one_touch]
                         (mk_result 1 frame_other) (armed 0x41) 0
                         eq_refl eq_refl eq_refl))
               eq_refl).
Defined.

Lemma reports_use_declared_witness :
  probe_ret (ili2117_i2c_probe 0x41 probe_ok) = 0 /\
  declared_slots (probe_calls (ili2117_i2c_probe 0x41 probe_ok)) = 10.
Proof.
  split; [reflexivity|].
  exact (proj1 (reports_use_declared 0x41 probe_ok frame_wide (probed 0x41) eq_refl)).
Defined.

Lemma interrupt_not_lost_witness :
  outstanding (exec (ili2117_irq) (in_flight 0x41)) = 1.
Proof.
  exact (proj1 (interrupt_not_lost jiffies_at_100hz (in_flight 0x41)
                  in_flight_is_reachable)).
Defined.
